(** * The plan store service of [server.js]

    An executable model of the Express handlers of [server.js] and of the
    SQLite table they run their statements on, followed by the properties
    of the HTTP contract.

    Layout:
    - [JS]: the scalar values a JSON body can hold, truthiness, [||];
    - [Sql]: SQLite cells, parameter binding, column affinity, comparison;
    - the [plans] table, its schema constraints and the seven statements;
    - the seven route handlers, as functions from a database to a response
      and the database afterwards;
    - reachable databases and the invariant the schema maintains;
    - the contract. *)

From Stdlib Require Import ZArith List String Ascii Bool Lia.
From Stdlib Require Import DecimalString DecimalZ DecimalPos Sorted Permutation.
Import ListNotations.
Open Scope string_scope.
Open Scope list_scope.
Open Scope Z_scope.

(** ** JavaScript values *)

Module JS.

(** The scalars [express.json()] can put in a field of [req.body].  A key
    that is missing from the body destructures to [Undefined].  [Num] holds
    the integer-valued numbers.  (A field that holds an object or an array
    is left out: what the driver binds for one depends on its version.) *)
Inductive value : Type :=
| Undefined
| Null
| Bool (b : bool)
| Num (n : Z)
| Str (s : string).

(** ToBoolean: [undefined], [null], [false], [0] and [''] are falsy. *)
Definition truthy (v : value) : bool :=
  match v with
  | Undefined | Null => false
  | Bool b => b
  | Num n => negb (n =? 0)
  | Str s => negb (String.eqb s "")
  end.

(** [a || b]. *)
Definition or (a b : value) : value := if truthy a then a else b.

(** [!a]. *)
Definition not (a : value) : bool := negb (truthy a).

End JS.

(** ** SQLite cells *)

Module Sql.

(** Storage classes the handlers can produce (no REAL, no BLOB). *)
Inductive value : Type :=
| Null
| Int (z : Z)
| Text (s : string).

Inductive error : Type :=
| FULL                 (* no rowid left for an AUTOINCREMENT key *)
| CONSTRAINT_NOTNULL
| CONSTRAINT_CHECK.

(** What the callback of [db.run] receives: [err], or [this] with the
    database afterwards. *)
Inductive result (A : Type) : Type :=
| Done (a : A)
| Failed (e : error).
Arguments Done {A} a.
Arguments Failed {A} e.

(** Binding one element of the parameter array of [db.run] / [db.get]:
    strings as TEXT, numbers and booleans as INTEGER, [null] as NULL;
    [undefined] binds nothing, which leaves the parameter NULL.  (The
    driver binds an integer beyond 32 bits as REAL; here every integer is an
    INTEGER, so the content of a cell that came from a number is exact within
    32 bits only.  Where a statement below gives the content of a stored
    title, description, author or deadline, it is for a string.) *)
Definition bind (v : JS.value) : value :=
  match v with
  | JS.Undefined | JS.Null => Null
  | JS.Bool b => Int (if b then 1 else 0)
  | JS.Num n => Int n
  | JS.Str s => Text s
  end.

(** A column of a row object handed to a [db.get] / [db.all] callback. *)
Definition to_js (c : value) : JS.value :=
  match c with
  | Null => JS.Null
  | Int z => JS.Num z
  | Text s => JS.Str s
  end.

(** TEXT affinity (columns [title], [description], [priority], [author]):
    a number is stored as its decimal text. *)
Definition text_affinity (c : value) : value :=
  match c with
  | Int z => Text (NilZero.string_of_int (Z.to_int z))
  | _ => c
  end.

(** The integer a text spells, for NUMERIC affinity: decimal digits after
    an optional minus sign.  This is exact for those texts (within 64 bits;
    digits beyond are a REAL for SQLite, above every key).  SQLite also reads
    a leading plus sign, blanks around the number, a fractional part and an
    exponent (['+1'], [' 1'], ['1.0'], ['1e0']); those spellings are not
    modelled and are [None] here.  A statement below that depends on how an
    identifier or a deadline is read therefore names the texts it is about:
    numerals, texts that hold a letter, dates. *)
Definition numeric_of_text (s : string) : option Z :=
  option_map Z.of_int (NilZero.int_of_string s).

(** NUMERIC affinity (columns [deadline DATE], [completed BOOLEAN]): a text
    that spells a number is stored as that number. *)
Definition numeric_affinity (c : value) : value :=
  match c with
  | Text s => match numeric_of_text s with
              | Some z => Int z
              | None => c
              end
  | _ => c
  end.

(** [id = ?] for an INTEGER PRIMARY KEY [k] and a bound parameter, to which
    the comparison applies NUMERIC affinity. *)
Definition rowid_eq (p : value) (k : Z) : bool :=
  match p with
  | Null => false
  | Int z => z =? k
  | Text s => match numeric_of_text s with
              | Some z => z =? k
              | None => false
              end
  end.

(** [c = 'lit'] where it selects a row: true only for that very text. *)
Definition eq_text (c : value) (lit : string) : bool :=
  match c with
  | Text s => String.eqb s lit
  | _ => false
  end.

(** [c = n] where it selects a row, for an integer literal. *)
Definition eq_int (c : value) (n : Z) : bool :=
  match c with
  | Int z => z =? n
  | _ => false
  end.

Definition is_null (c : value) : bool :=
  match c with
  | Null => true
  | _ => false
  end.

(** [SUM(x)]: NULL over no rows, the sum otherwise. *)
Definition sum (xs : list Z) : value :=
  match xs with
  | [] => Null
  | _ :: _ => Int (fold_right Z.add 0 xs)
  end.

(** [COUNT( * )]. *)
Definition count {A : Type} (rows : list A) : value :=
  Int (Z.of_nat (List.length rows)).

(** The largest rowid SQLite hands out. *)
Definition max_rowid : Z := 9223372036854775807.

End Sql.

(** ** The [plans] table *)

(** A row, column by column as [CREATE TABLE plans] declares them.
    [created_at] is the second CURRENT_TIMESTAMP read at the insert, kept as
    seconds since the epoch: the stored text [YYYY-MM-DD HH:MM:SS] has
    one-second resolution and sorts the same way. *)
Record plan : Type := mkPlan {
  id : Z;
  title : Sql.value;
  description : Sql.value;
  priority : Sql.value;
  deadline : Sql.value;
  author : Sql.value;
  completed : Sql.value;
  created_at : Z
}.

(** The database file: the rows in rowid order (the order a table scan
    visits them), and [sqlite_sequence], the largest rowid ever used. *)
Record db : Type := mkDb {
  plans : list plan;
  seq : Z
}.

(** [CREATE TABLE IF NOT EXISTS] on a new file. *)
Definition empty_db : db := {| plans := []; seq := 0 |}.

(** [CHECK(priority IN ('low', 'medium', 'high'))]: violated when the
    expression is false; a NULL priority makes it NULL, which passes. *)
Definition check_priority (c : Sql.value) : bool :=
  match c with
  | Sql.Null => true
  | Sql.Int _ => false
  | Sql.Text s => String.eqb s "low" || String.eqb s "medium" || String.eqb s "high"
  end.

(** The constraints a statement that writes [title], [priority], [deadline]
    and [author] must pass: the NOT NULL columns first, then the CHECK. *)
Definition violation (r : plan) : option Sql.error :=
  if Sql.is_null (title r) || Sql.is_null (deadline r) || Sql.is_null (author r)
  then Some Sql.CONSTRAINT_NOTNULL
  else if check_priority (priority r) then None
  else Some Sql.CONSTRAINT_CHECK.

(** *** The statements *)

(** The rows [WHERE id = ?] selects. *)
Definition hit (p : Sql.value) (r : plan) : bool := Sql.rowid_eq p (id r).

(** [ORDER BY created_at DESC]: the sorter is stable over the table scan, so
    rows with the same [created_at] stay in rowid order. *)
Fixpoint insert_desc (r : plan) (l : list plan) : list plan :=
  match l with
  | [] => [r]
  | x :: l' =>
      if created_at r <? created_at x then x :: insert_desc r l' else r :: l
  end.

Definition order_by_created_at_desc (l : list plan) : list plan :=
  fold_right insert_desc [] l.

(** [SELECT * FROM plans ORDER BY created_at DESC]. *)
Definition select_all (d : db) : list plan :=
  order_by_created_at_desc (plans d).

(** [SELECT * FROM plans WHERE id = ?] through [db.get]: the first row, or
    [undefined]. *)
Definition select_by_id (p : Sql.value) (d : db) : option plan :=
  find (hit p) (plans d).

(** [INSERT INTO plans (title, description, priority, deadline, author)
    VALUES (?, ?, ?, ?, ?)] at clock reading [now].  The key is one more than
    the largest ever used; [completed] and [created_at] take their defaults.
    Returns the database and [this.lastID]. *)
Definition insert_plan (now : Z) (t ds p dl a : Sql.value) (d : db)
  : Sql.result (db * Z) :=
  if Sql.max_rowid <=? seq d then Sql.Failed Sql.FULL
  else
    let r := {| id := seq d + 1;
                title := Sql.text_affinity t;
                description := Sql.text_affinity ds;
                priority := Sql.text_affinity p;
                deadline := Sql.numeric_affinity dl;
                author := Sql.text_affinity a;
                completed := Sql.Int 0;
                created_at := now |} in
    match violation r with
    | Some e => Sql.Failed e
    | None => Sql.Done ({| plans := plans d ++ [r]; seq := id r |}, id r)
    end.

(** The row [UPDATE plans SET title = ?, description = ?, priority = ?,
    deadline = ?, author = ?, completed = ?] makes of [r].  ([completed] is
    always bound to an integer, which its NUMERIC affinity keeps.) *)
Definition set_fields (t ds p dl a c : Sql.value) (r : plan) : plan :=
  {| id := id r;
     title := Sql.text_affinity t;
     description := Sql.text_affinity ds;
     priority := Sql.text_affinity p;
     deadline := Sql.numeric_affinity dl;
     author := Sql.text_affinity a;
     completed := c;
     created_at := created_at r |}.

(** The first constraint a row-by-row rewrite of the selected rows breaks. *)
Fixpoint first_violation (p : Sql.value) (f : plan -> plan) (l : list plan)
  : option Sql.error :=
  match l with
  | [] => None
  | r :: l' =>
      if hit p r then
        match violation (f r) with
        | Some e => Some e
        | None => first_violation p f l'
        end
      else first_violation p f l'
  end.

Definition rewrite_where (p : Sql.value) (f : plan -> plan) (l : list plan)
  : list plan :=
  map (fun r => if hit p r then f r else r) l.

(** [this.changes]: the number of rows the statement touched. *)
Definition changes_of (p : Sql.value) (l : list plan) : Z :=
  Z.of_nat (List.length (filter (hit p) l)).

(** The [UPDATE ... WHERE id = ?] of the PUT handler.  A constraint failure
    aborts the statement and leaves the table as it was. *)
Definition update_plan_where (t ds p dl a c pid : Sql.value) (d : db)
  : Sql.result (db * Z) :=
  match first_violation pid (set_fields t ds p dl a c) (plans d) with
  | Some e => Sql.Failed e
  | None =>
      Sql.Done ({| plans := rewrite_where pid (set_fields t ds p dl a c) (plans d);
                   seq := seq d |},
                changes_of pid (plans d))
  end.

Definition set_completed (c : Sql.value) (r : plan) : plan :=
  {| id := id r;
     title := title r;
     description := description r;
     priority := priority r;
     deadline := deadline r;
     author := author r;
     completed := c;
     created_at := created_at r |}.

(** [UPDATE plans SET completed = ? WHERE id = ?]: no constrained column is
    written, so the statement cannot fail. *)
Definition update_completed_where (c pid : Sql.value) (d : db)
  : Sql.result (db * Z) :=
  Sql.Done ({| plans := rewrite_where pid (set_completed c) (plans d);
               seq := seq d |},
            changes_of pid (plans d)).

(** [DELETE FROM plans WHERE id = ?]. *)
Definition delete_where (pid : Sql.value) (d : db) : Sql.result (db * Z) :=
  Sql.Done ({| plans := filter (fun r => negb (hit pid r)) (plans d);
               seq := seq d |},
            changes_of pid (plans d)).

(** The one row of the statistics query. *)
Record stats_row : Type := mkStats {
  total : Sql.value;
  completed_count : Sql.value;
  high_priority : Sql.value
}.

(** [SELECT COUNT( * ) as total,
           SUM(CASE WHEN completed = 1 THEN 1 ELSE 0 END) as completed,
           SUM(CASE WHEN priority = 'high' THEN 1 ELSE 0 END) as high_priority
    FROM plans]. *)
Definition select_stats (d : db) : stats_row :=
  {| total := Sql.count (plans d);
     completed_count :=
       Sql.sum (map (fun r => if Sql.eq_int (completed r) 1 then 1 else 0) (plans d));
     high_priority :=
       Sql.sum (map (fun r => if Sql.eq_text (priority r) "high" then 1 else 0) (plans d)) |}.

(** ** The route handlers *)

(** [req.body], destructured: a missing key is [JS.Undefined]. *)
Record body : Type := mkBody {
  b_title : JS.value;
  b_description : JS.value;
  b_priority : JS.value;
  b_deadline : JS.value;
  b_author : JS.value;
  b_completed : JS.value
}.

(** What a handler sends: [res.json(a)] (status 200), or [res.status(400)],
    [res.status(404)], [res.status(500)] with an error object. *)
Inductive response (A : Type) : Type :=
| Ok200 (a : A)
| ValidationError
| NotFound
| StorageError (e : Sql.error).
Arguments Ok200 {A} a.
Arguments ValidationError {A}.
Arguments NotFound {A}.
Arguments StorageError {A} e.

Definition status {A : Type} (r : response A) : Z :=
  match r with
  | Ok200 _ => 200
  | ValidationError => 400
  | NotFound => 404
  | StorageError _ => 500
  end.

(** The object the POST handler answers with.  [c_created_at] is the
    handler's own [new Date()], in milliseconds. *)
Record created : Type := mkCreated {
  c_id : Z;
  c_title : JS.value;
  c_description : JS.value;
  c_priority : JS.value;
  c_deadline : JS.value;
  c_author : JS.value;
  c_completed : bool;
  c_created_at : Z
}.

Inductive message : Type := PlanUpdated | PlanDeleted.

(** [{ message, changes }]. *)
Record changed : Type := mkChanged {
  ch_message : message;
  ch_changes : Z
}.

(** [{ completed, changes }]. *)
Record toggled : Type := mkToggled {
  t_completed : bool;
  t_changes : Z
}.

(** [req.params.id] is the path segment, a string, bound as it is. *)
Definition param (i : string) : Sql.value := Sql.bind (JS.Str i).

(** [app.get('/api/plans')]. *)
Definition list_plans (d : db) : response (list plan) * db :=
  (Ok200 (select_all d), d).

(** [app.get('/api/plans/:id')]. *)
Definition get_plan (i : string) (d : db) : response plan * db :=
  match select_by_id (param i) d with
  | None => (NotFound, d)
  | Some row => (Ok200 row, d)
  end.

(** The guard of the POST handler: [!title || !deadline || !author]. *)
Definition missing_required (b : body) : bool :=
  JS.not (b_title b) || JS.not (b_deadline b) || JS.not (b_author b).

(** [app.post('/api/plans')], with the two clock readings it depends on:
    [now], the store's CURRENT_TIMESTAMP (seconds), and [js_now], the
    handler's [new Date()] (milliseconds). *)
Definition create_plan (now js_now : Z) (b : body) (d : db)
  : response created * db :=
  if missing_required b then (ValidationError, d)
  else
    match insert_plan now
            (Sql.bind (b_title b))
            (Sql.bind (JS.or (b_description b) (JS.Str "")))
            (Sql.bind (JS.or (b_priority b) (JS.Str "medium")))
            (Sql.bind (b_deadline b))
            (Sql.bind (b_author b)) d with
    | Sql.Failed e => (StorageError e, d)
    | Sql.Done (d', lastID) =>
        (Ok200 {| c_id := lastID;
                  c_title := b_title b;
                  c_description := JS.or (b_description b) (JS.Str "");
                  c_priority := JS.or (b_priority b) (JS.Str "medium");
                  c_deadline := b_deadline b;
                  c_author := b_author b;
                  c_completed := false;
                  c_created_at := js_now |}, d')
    end.

(** [completed ? 1 : 0] and [newStatus ? 1 : 0]. *)
Definition flag (c : bool) : JS.value := JS.Num (if c then 1 else 0).

(** [app.put('/api/plans/:id')]. *)
Definition update_plan (i : string) (b : body) (d : db)
  : response changed * db :=
  match update_plan_where
          (Sql.bind (b_title b))
          (Sql.bind (JS.or (b_description b) (JS.Str "")))
          (Sql.bind (JS.or (b_priority b) (JS.Str "medium")))
          (Sql.bind (b_deadline b))
          (Sql.bind (b_author b))
          (Sql.bind (flag (JS.truthy (b_completed b))))
          (param i) d with
  | Sql.Failed e => (StorageError e, d)
  | Sql.Done (d', changes) =>
      if changes =? 0 then (NotFound, d')
      else (Ok200 {| ch_message := PlanUpdated; ch_changes := changes |}, d')
  end.

(** [app.delete('/api/plans/:id')]. *)
Definition delete_plan (i : string) (d : db) : response changed * db :=
  match delete_where (param i) d with
  | Sql.Failed e => (StorageError e, d)
  | Sql.Done (d', changes) =>
      if changes =? 0 then (NotFound, d')
      else (Ok200 {| ch_message := PlanDeleted; ch_changes := changes |}, d')
  end.

(** [app.patch('/api/plans/:id/toggle')]: [SELECT completed], then the
    UPDATE with [!row.completed]. *)
Definition toggle_plan (i : string) (d : db) : response toggled * db :=
  match select_by_id (param i) d with
  | None => (NotFound, d)
  | Some row =>
      let newStatus := JS.not (Sql.to_js (completed row)) in
      match update_completed_where (Sql.bind (flag newStatus)) (param i) d with
      | Sql.Failed e => (StorageError e, d)
      | Sql.Done (d', changes) =>
          (Ok200 {| t_completed := newStatus; t_changes := changes |}, d')
      end
  end.

(** [app.get('/api/stats')]: [rows[0]]. *)
Definition get_stats (d : db) : response stats_row * db :=
  (Ok200 (select_stats d), d).

(** ** Runs of the service *)

(** One request, with the clock readings a create consumes. *)
Inductive request : Type :=
| ListPlans
| GetPlan (i : string)
| CreatePlan (now js_now : Z) (b : body)
| UpdatePlan (i : string) (b : body)
| DeletePlan (i : string)
| TogglePlan (i : string)
| GetStats.

(** The database after a request has been served. *)
Definition step (d : db) (r : request) : db :=
  match r with
  | ListPlans => snd (list_plans d)
  | GetPlan i => snd (get_plan i d)
  | CreatePlan now js_now b => snd (create_plan now js_now b d)
  | UpdatePlan i b => snd (update_plan i b d)
  | DeletePlan i => snd (delete_plan i d)
  | TogglePlan i => snd (toggle_plan i d)
  | GetStats => snd (get_stats d)
  end.

Definition run (rs : list request) (d : db) : db := fold_left step rs d.

(** The databases the service can be in: a new file, then requests served
    one after the other. *)
Definition reachable (d : db) : Prop := exists rs, d = run rs empty_db.

(** ** The invariant of the table *)

Definition priority_ok (c : Sql.value) : Prop :=
  c = Sql.Text "low" \/ c = Sql.Text "medium" \/ c = Sql.Text "high".

Definition flag_ok (c : Sql.value) : Prop :=
  c = Sql.Int 0 \/ c = Sql.Int 1.

(** What the schema and the handlers keep true of a stored row. *)
Record row_ok (r : plan) : Prop := mkRowOk {
  title_present : title r <> Sql.Null;
  deadline_present : deadline r <> Sql.Null;
  author_present : author r <> Sql.Null;
  priority_enum : priority_ok (priority r);
  completed_flag : flag_ok (completed r)
}.

Definition by_id (a b : plan) : Prop := id a < id b.

(** Keys are positive, never above [sqlite_sequence], and strictly
    increasing along the table (so no two rows share one). *)
Record wf (d : db) : Prop := mkWf {
  wf_seq : 0 <= seq d;
  wf_rows : Forall row_ok (plans d);
  wf_ids : Forall (fun r => 1 <= id r <= seq d) (plans d);
  wf_order : StronglySorted by_id (plans d)
}.

(** The key a bound parameter selects, if any. *)
Definition key_of (p : Sql.value) : option Z :=
  match p with
  | Sql.Null => None
  | Sql.Int z => Some z
  | Sql.Text s => Sql.numeric_of_text s
  end.

(** No row of [l] has the key the parameter [p] selects. *)
Definition no_hit (p : Sql.value) (l : list plan) : Prop :=
  forall r, In r l -> hit p r = false.

(** The path segment [i] names no stored plan. *)
Definition unmatched (i : string) (d : db) : Prop := no_hit (param i) (plans d).

(** "[x] comes before [y] in [l]". *)
Definition before (x y : plan) (l : list plan) : Prop :=
  exists l1 l2 l3, l = l1 ++ x :: l2 ++ y :: l3.

(** ** Vocabulary of the contract *)

(** A field the body leaves out, or gives as [null]. *)
Definition absent (v : JS.value) : Prop := v = JS.Undefined \/ v = JS.Null.

(** A field given as the empty string. *)
Definition empty (v : JS.value) : Prop := v = JS.Str "".

Definition absent_or_empty (v : JS.value) : Prop := absent v \/ empty v.

(** A field given as a text with at least one character. *)
Definition nonempty_text (v : JS.value) : Prop :=
  exists s, v = JS.Str s /\ s <> "".

(** The three texts of the enumeration, as a body spells them. *)
Definition priorities : list JS.value :=
  [JS.Str "low"; JS.Str "medium"; JS.Str "high"].

(** The number of rows of [l] that satisfy [f]. *)
Definition count_rows (f : plan -> bool) (l : list plan) : Z :=
  Z.of_nat (List.length (filter f l)).

(** [completed] is true: the cell holds 1. *)
Definition is_completed (r : plan) : bool := Sql.eq_int (completed r) 1.

(** [priority] is ['high']. *)
Definition is_high (r : plan) : bool := Sql.eq_text (priority r) "high".

(** The row the PUT handler asks the store to put in place of [r]: the six
    bound parameters of its UPDATE. *)
Definition new_row (b : body) (r : plan) : plan :=
  set_fields
    (Sql.bind (b_title b))
    (Sql.bind (JS.or (b_description b) (JS.Str "")))
    (Sql.bind (JS.or (b_priority b) (JS.Str "medium")))
    (Sql.bind (b_deadline b))
    (Sql.bind (b_author b))
    (Sql.bind (flag (JS.truthy (b_completed b))))
    r.

(** A priority the store takes: a falsy one (the handler sends ['medium']
    in its place) or one of the three texts. *)
Definition accepted_priority (v : JS.value) : Prop :=
  JS.truthy v = false \/ In v priorities.

(** A body whose values pass the NOT NULL and CHECK constraints. *)
Definition storable (b : body) : Prop :=
  ~ absent (b_title b) /\ ~ absent (b_deadline b) /\ ~ absent (b_author b) /\
  accepted_priority (b_priority b).

(** [a] may stand before [b] in a listing by [created_at] descending. *)
Definition newest_first (a b : plan) : Prop := created_at b <= created_at a.

(** The identifier [i] is a numeral for the key [k]: decimal digits after
    an optional minus sign (["7"], ["007"], ["-3"]).  SQLite reads such a
    text as that same number. *)
Definition numeral (i : string) (k : Z) : Prop := Sql.numeric_of_text i = Some k.




Definition digit (a : ascii) : bool :=
  let n := nat_of_ascii a in ((48 <=? n) && (n <=? 57))%nat.

(** A date as a date input sends it: [YYYY-MM-DD]. *)
Definition is_date (s : string) : bool :=
  match s with
  | String y1 (String y2 (String y3 (String y4 (String h1
      (String m1 (String m2 (String h2 (String d1 (String d2 EmptyString))))))))) =>
      digit y1 && digit y2 && digit y3 && digit y4 && Ascii.eqb h1 "-"
      && digit m1 && digit m2 && Ascii.eqb h2 "-" && digit d1 && digit d2
  | _ => false
  end.

Definition date_text (s : string) : Prop := is_date s = true.

(** ** Sample requests *)

(** The body of the end-to-end scenario: no description, no priority. *)
Definition ship_release : body :=
  {| b_title := JS.Str "Ship release";
     b_description := JS.Undefined;
     b_priority := JS.Undefined;
     b_deadline := JS.Str "2024-06-01";
     b_author := JS.Str "alice";
     b_completed := JS.Undefined |}.

Definition with_title (v : JS.value) (b : body) : body :=
  {| b_title := v;
     b_description := b_description b;
     b_priority := b_priority b;
     b_deadline := b_deadline b;
     b_author := b_author b;
     b_completed := b_completed b |}.

Definition with_author (v : JS.value) (b : body) : body :=
  {| b_title := b_title b;
     b_description := b_description b;
     b_priority := b_priority b;
     b_deadline := b_deadline b;
     b_author := v;
     b_completed := b_completed b |}.

Definition with_priority (v : JS.value) (b : body) : body :=
  {| b_title := b_title b;
     b_description := b_description b;
     b_priority := v;
     b_deadline := b_deadline b;
     b_author := b_author b;
     b_completed := b_completed b |}.

Definition with_description (v : JS.value) (b : body) : body :=
  {| b_title := b_title b;
     b_description := v;
     b_priority := b_priority b;
     b_deadline := b_deadline b;
     b_author := b_author b;
     b_completed := b_completed b |}.

Definition with_completed (v : JS.value) (b : body) : body :=
  {| b_title := b_title b;
     b_description := b_description b;
     b_priority := b_priority b;
     b_deadline := b_deadline b;
     b_author := b_author b;
     b_completed := v |}.

(** What the scenario's create is answered with on a new database, the
    handler's clock at millisecond 100000. *)
Definition ship_release_created : created :=
  {| c_id := 1;
     c_title := JS.Str "Ship release";
     c_description := JS.Str "";
     c_priority := JS.Str "medium";
     c_deadline := JS.Str "2024-06-01";
     c_author := JS.Str "alice";
     c_completed := false;
     c_created_at := 100000 |}.

(** A database holding the one plan of the scenario, created at second 100. *)
Definition one_plan : db := run [CreatePlan 100 100000 ship_release] empty_db.

(** Two plans created one after the other within the same second. *)
Definition two_plans : db :=
  run [CreatePlan 100 100000 ship_release;
       CreatePlan 100 100400 (with_title (JS.Str "Write notes") ship_release)]
      empty_db.

(** ** Identifiers and answers *)

(** The path segment a client writes for the key [k]: its decimal text. *)
Definition decimal (k : Z) : string := NilZero.string_of_int (Z.to_int k).

(** The status code a request is answered with. *)
Definition status_of (d : db) (r : request) : Z :=
  match r with
  | ListPlans => status (fst (list_plans d))
  | GetPlan i => status (fst (get_plan i d))
  | CreatePlan now js_now b => status (fst (create_plan now js_now b d))
  | UpdatePlan i b => status (fst (update_plan i b d))
  | DeletePlan i => status (fst (delete_plan i d))
  | TogglePlan i => status (fst (toggle_plan i d))
  | GetStats => status (fst (get_stats d))
  end.

(** By how many rows a request answered with 200 changes the table. *)
Definition growth (r : request) : Z :=
  match r with
  | CreatePlan _ _ _ => 1
  | DeletePlan _ => -1
  | _ => 0
  end.

(** The columns the handlers always store as texts. *)
Definition texts (r : plan) : Prop :=
  (exists s, title r = Sql.Text s) /\ (exists s, description r = Sql.Text s) /\
  (exists s, author r = Sql.Text s).

(** ** Lemmas on values and constraints *)

Section Values.

Lemma truthy_or_default (v : JS.value) (s : string) :
  s <> "" -> JS.truthy (JS.or v (JS.Str s)) = true.
Proof.
  intros Hs. unfold JS.or.
  destruct (JS.truthy v) eqn:E; [exact E|].
  simpl. apply negb_true_iff, String.eqb_neq, Hs.
Qed.

Lemma bind_truthy_not_null (v : JS.value) :
  JS.truthy v = true -> Sql.bind v <> Sql.Null.
Proof. destruct v; simpl; congruence. Qed.

Lemma text_affinity_null (c : Sql.value) :
  Sql.text_affinity c = Sql.Null <-> c = Sql.Null.
Proof. destruct c; simpl; split; congruence. Qed.

Lemma numeric_affinity_null (c : Sql.value) :
  Sql.numeric_affinity c = Sql.Null <-> c = Sql.Null.
Proof.
  destruct c as [|z|s]; simpl; try (split; congruence).
  destruct (Sql.numeric_of_text s); split; congruence.
Qed.

Lemma text_affinity_text (c : Sql.value) :
  c <> Sql.Null -> exists t, Sql.text_affinity c = Sql.Text t.
Proof. destruct c; simpl; intros H; [congruence | eauto | eauto]. Qed.

Lemma check_priority_text (t : string) :
  check_priority (Sql.Text t) = true <-> priority_ok (Sql.Text t).
Proof.
  unfold priority_ok; simpl. rewrite !orb_true_iff, !String.eqb_eq.
  split.
  - intros [[H | H] | H]; subst; auto.
  - intros [H | [H | H]]; inversion H; auto.
Qed.

Lemma is_null_false (c : Sql.value) : Sql.is_null c = false <-> c <> Sql.Null.
Proof. destruct c; simpl; split; congruence. Qed.

Lemma violation_none (r : plan) :
  violation r = None <->
  title r <> Sql.Null /\ deadline r <> Sql.Null /\ author r <> Sql.Null /\
  check_priority (priority r) = true.
Proof.
  unfold violation.
  destruct (Sql.is_null (title r)) eqn:Et, (Sql.is_null (deadline r)) eqn:Ed,
           (Sql.is_null (author r)) eqn:Ea; simpl;
    try (split; [discriminate|];
         intros (H1 & H2 & H3 & _);
         first [ apply is_null_false in H1; congruence
               | apply is_null_false in H2; congruence
               | apply is_null_false in H3; congruence ]).
  apply is_null_false in Et, Ed, Ea.
  destruct (check_priority (priority r)); split; intros H;
    try discriminate; try tauto.
  destruct H as (_ & _ & _ & H); discriminate.
Qed.

Lemma flag_bound (c : bool) : flag_ok (Sql.bind (flag c)).
Proof. destruct c; [right | left]; reflexivity. Qed.

(** The priority the handlers hand to the store is a text, so the CHECK
    decides membership in the enumeration. *)
Lemma priority_cell (v : JS.value) :
  exists t, Sql.text_affinity (Sql.bind (JS.or v (JS.Str "medium"))) = Sql.Text t.
Proof.
  apply text_affinity_text, bind_truthy_not_null, truthy_or_default.
  discriminate.
Qed.

Lemma numeric_of_decimal (k : Z) : Sql.numeric_of_text (decimal k) = Some k.
Proof.
  unfold Sql.numeric_of_text, decimal. rewrite NilZero.isi.
  - simpl. now rewrite DecimalZ.of_to.
  - destruct k; simpl; try discriminate.
    intros H. inversion H as [H1].
    now apply DecimalPos.Unsigned.to_uint_nonnil in H1.
  - destruct k; simpl; try discriminate.
    intros H. inversion H as [H1].
    now apply DecimalPos.Unsigned.to_uint_nonnil in H1.
Qed.

(** The decimal text of a key selects the rows with that key and no other. *)
Lemma decimal_hit (k : Z) (r : plan) : hit (param (decimal k)) r = (k =? id r).
Proof. unfold hit, param. simpl. now rewrite numeric_of_decimal. Qed.

(** A numeral selects the rows with its key and no other. *)
Lemma numeral_hit (i : string) (k : Z) (r : plan) :
  numeral i k -> hit (param i) r = (k =? id r).
Proof. unfold numeral, hit, param. simpl. now intros ->. Qed.

Lemma decimal_numeral (k : Z) : numeral (decimal k) k.
Proof. apply numeric_of_decimal. Qed.







Lemma digit_not_minus (a : ascii) : digit a = true -> Ascii.eqb a "-" = false.
Proof.
  destruct a as [[] [] [] [] [] [] [] []]; simpl; intros H;
    try discriminate; reflexivity.
Qed.

Lemma uint_of_char_minus (x : option Decimal.uint) : uint_of_char "-" x = None.
Proof. destruct x; reflexivity. Qed.

Lemma date_not_numeric (s : string) :
  date_text s -> Sql.numeric_of_text s = None.
Proof.
  unfold date_text.
  destruct s as [|y1 [|y2 [|y3 [|y4 [|h1 s]]]]]; try discriminate.
  intros H.
  assert (D : digit y1 = true /\ h1 = "-"%char).
  { destruct s as [|m1 [|m2 [|h2 [|d1 [|d2 [|? ?]]]]]]; try discriminate.
    simpl in H. rewrite !andb_true_iff in H.
    destruct H as [[[[[[[[[H1 _] _] _] H5] _] _] _] _] _].
    split; auto. now apply Ascii.eqb_eq. }
  destruct D as [D ->].
  unfold Sql.numeric_of_text, NilZero.int_of_string.
  rewrite (digit_not_minus _ D).
  unfold NilZero.uint_of_string. simpl.
  rewrite uint_of_char_minus. reflexivity.
Qed.

(** The DATE column keeps a date given as [YYYY-MM-DD] as that text. *)
Lemma date_cell (s : string) :
  date_text s -> Sql.numeric_affinity (Sql.bind (JS.Str s)) = Sql.Text s.
Proof. intros H. simpl. now rewrite (date_not_numeric s H). Qed.

End Values.

(** ** Lemmas on the statements *)

Section Table.

Lemma rowid_eq_key (p : Sql.value) (k : Z) :
  Sql.rowid_eq p k = true <-> key_of p = Some k.
Proof.
  destruct p as [|z|s]; simpl.
  - split; discriminate.
  - rewrite Z.eqb_eq. split; congruence.
  - destruct (Sql.numeric_of_text s) as [z|].
    + rewrite Z.eqb_eq. split; congruence.
    + split; discriminate.
Qed.

Lemma hit_same_id (p : Sql.value) (a b : plan) :
  hit p a = true -> hit p b = true -> id a = id b.
Proof.
  unfold hit. rewrite !rowid_eq_key. congruence.
Qed.

Lemma sorted_unique (l : list plan) (a b : plan) :
  StronglySorted by_id l -> In a l -> In b l -> id a = id b -> a = b.
Proof.
  induction 1 as [|x l Hs IH Hx]; intros Ha Hb E; [contradiction|].
  rewrite Forall_forall in Hx. unfold by_id in Hx.
  destruct Ha as [<- | Ha], Hb as [<- | Hb]; auto.
  - specialize (Hx _ Hb). lia.
  - specialize (Hx _ Ha). lia.
Qed.

Lemma sorted_filter (g : plan -> bool) (l : list plan) :
  StronglySorted by_id l -> StronglySorted by_id (filter g l).
Proof.
  induction 1 as [|x l Hs IH Hx]; simpl; [constructor|].
  destruct (g x); auto. constructor; auto.
  rewrite Forall_forall in *. intros y Hy.
  apply filter_In in Hy. apply Hx, Hy.
Qed.

Lemma sorted_snoc (l : list plan) (x : plan) :
  StronglySorted by_id l -> Forall (fun r => id r < id x) l ->
  StronglySorted by_id (l ++ [x]).
Proof.
  induction 1 as [|y l Hs IH Hy]; intros Hall; simpl.
  - constructor; constructor.
  - inversion Hall as [|? ? Hyx Hl]; subst.
    constructor; auto.
    apply Forall_app; split; auto.
Qed.

Lemma sorted_rewrite (p : Sql.value) (f : plan -> plan) (l : list plan) :
  (forall r, id (f r) = id r) ->
  StronglySorted by_id l -> StronglySorted by_id (rewrite_where p f l).
Proof.
  intros Hf. induction 1 as [|x l Hs IH Hx]; simpl; [constructor|].
  assert (Hid : forall r, id (if hit p r then f r else r) = id r)
    by (intros r; destruct (hit p r); auto).
  constructor; auto.
  unfold rewrite_where. rewrite Forall_map.
  rewrite Forall_forall in *. intros y Hy. unfold by_id.
  rewrite !Hid. apply Hx, Hy.
Qed.

Lemma hit_at_most_once (p : Sql.value) (l : list plan) :
  StronglySorted by_id l -> (List.length (filter (hit p) l) <= 1)%nat.
Proof.
  induction 1 as [|x l Hs IH Hx]; simpl; [lia|].
  destruct (hit p x) eqn:E; [|lia].
  assert (filter (hit p) l = []) as ->; [|simpl; lia].
  destruct (filter (hit p) l) as [|y t] eqn:F; auto.
  assert (Hy : In y (filter (hit p) l)) by (rewrite F; now left).
  apply filter_In in Hy. destruct Hy as [Hin Hh].
  rewrite Forall_forall in Hx. specialize (Hx _ Hin). unfold by_id in Hx.
  pose proof (hit_same_id _ _ _ E Hh). lia.
Qed.

Lemma no_hit_find (p : Sql.value) (l : list plan) :
  no_hit p l <-> find (hit p) l = None.
Proof.
  split.
  - intros H. destruct (find (hit p) l) as [r|] eqn:E; auto.
    apply find_some in E. destruct E as [Hin Hh].
    rewrite (H _ Hin) in Hh. discriminate.
  - intros H r Hin. apply (find_none _ _ H _ Hin).
Qed.

Lemma no_hit_filter (p : Sql.value) (l : list plan) :
  no_hit p l -> filter (hit p) l = [].
Proof.
  induction l as [|x l IH]; intros H; simpl; auto.
  rewrite (H x (or_introl eq_refl)).
  apply IH. intros r Hr. apply H. now right.
Qed.

Lemma no_hit_keep (p : Sql.value) (l : list plan) :
  no_hit p l -> filter (fun r => negb (hit p r)) l = l.
Proof.
  induction l as [|x l IH]; intros H; simpl; auto.
  rewrite (H x (or_introl eq_refl)). simpl. f_equal.
  apply IH. intros r Hr. apply H. now right.
Qed.

Lemma no_hit_rewrite (p : Sql.value) (f : plan -> plan) (l : list plan) :
  no_hit p l -> rewrite_where p f l = l.
Proof.
  induction l as [|x l IH]; intros H; simpl; auto.
  rewrite (H x (or_introl eq_refl)). f_equal.
  apply IH. intros r Hr. apply H. now right.
Qed.

Lemma no_hit_first_violation (p : Sql.value) (f : plan -> plan) (l : list plan) :
  no_hit p l -> first_violation p f l = None.
Proof.
  induction l as [|x l IH]; intros H; simpl; auto.
  rewrite (H x (or_introl eq_refl)).
  apply IH. intros r Hr. apply H. now right.
Qed.

Lemma no_hit_changes (p : Sql.value) (l : list plan) :
  no_hit p l <-> changes_of p l = 0.
Proof.
  unfold changes_of. split.
  - intros H. now rewrite no_hit_filter.
  - intros H r Hin. destruct (hit p r) eqn:E; auto.
    assert (Hf : In r (filter (hit p) l)) by (apply filter_In; auto).
    destruct (filter (hit p) l); [contradiction | simpl in H; lia].
Qed.

Lemma changes_range (p : Sql.value) (l : list plan) :
  StronglySorted by_id l -> 0 <= changes_of p l <= 1.
Proof.
  intros Hs. pose proof (hit_at_most_once p l Hs). unfold changes_of. lia.
Qed.

(** A statement that passed its constraints left every selected row
    satisfying them. *)
Lemma first_violation_none (p : Sql.value) (f : plan -> plan) (l : list plan) :
  first_violation p f l = None <->
  (forall r, In r l -> hit p r = true -> violation (f r) = None).
Proof.
  induction l as [|x l IH]; simpl.
  - split; auto. intros _ r [].
  - destruct (hit p x) eqn:E.
    + destruct (violation (f x)) eqn:V.
      * split; [discriminate|]. intros H.
        rewrite (H x (or_introl eq_refl) E) in V. discriminate.
      * rewrite IH. split.
        -- intros H r [<- | Hr] Hh; auto.
        -- intros H r Hr Hh. apply H; auto.
    + rewrite IH. split.
      * intros H r [<- | Hr] Hh; [congruence | auto].
      * intros H r Hr Hh. apply H; auto.
Qed.

Lemma in_rewrite (p : Sql.value) (f : plan -> plan) (l : list plan) (y : plan) :
  In y (rewrite_where p f l) <->
  exists r, In r l /\ y = if hit p r then f r else r.
Proof.
  unfold rewrite_where. rewrite in_map_iff.
  split; intros (r & H1 & H2); exists r; auto.
Qed.

End Table.

(** ** The invariant holds in every reachable database *)

Section Invariant.

Lemma wf_empty : wf empty_db.
Proof. constructor; simpl; try constructor; lia. Qed.

Lemma insert_wf (now : Z) (t ds p dl a : Sql.value) (d d' : db) (k : Z) :
  wf d -> (exists s, Sql.text_affinity p = Sql.Text s) ->
  insert_plan now t ds p dl a d = Sql.Done (d', k) -> wf d'.
Proof.
  intros [Hseq Hrows Hids Hord] [s Hp]. unfold insert_plan.
  destruct (Sql.max_rowid <=? seq d); [discriminate|].
  match goal with |- context [violation ?r] => set (row := r) end.
  destruct (violation row) eqn:V; [discriminate|].
  intros E; inversion E; subst; clear E.
  apply violation_none in V. destruct V as (Ht & Hd & Ha & Hc).
  constructor; simpl.
  - lia.
  - apply Forall_app; split; auto. constructor; [|constructor].
    constructor; auto.
    + simpl in Hc |- *. rewrite Hp in Hc |- *. now apply check_priority_text.
    + now left.
  - apply Forall_app; split.
    + eapply Forall_impl; [|exact Hids]. simpl; intros; lia.
    + constructor; [simpl; lia | constructor].
  - apply sorted_snoc; auto.
    eapply Forall_impl; [|exact Hids]. simpl; intros; lia.
Qed.

Lemma rewrite_wf (p : Sql.value) (f : plan -> plan) (d : db) :
  wf d -> (forall r, id (f r) = id r) ->
  (forall r, In r (plans d) -> hit p r = true -> row_ok r -> row_ok (f r)) ->
  wf {| plans := rewrite_where p f (plans d); seq := seq d |}.
Proof.
  intros [Hseq Hrows Hids Hord] Hid Hok.
  constructor; simpl; auto.
  - rewrite Forall_forall in *. intros y Hy.
    apply in_rewrite in Hy. destruct Hy as (r & Hr & ->).
    destruct (hit p r) eqn:E; auto.
  - rewrite Forall_forall in *. intros y Hy.
    apply in_rewrite in Hy. destruct Hy as (r & Hr & ->).
    destruct (hit p r); [rewrite Hid|]; auto.
  - now apply sorted_rewrite.
Qed.

Lemma update_wf (t ds p dl a c pid : Sql.value) (d d' : db) (k : Z) :
  wf d -> (exists s, Sql.text_affinity p = Sql.Text s) -> flag_ok c ->
  update_plan_where t ds p dl a c pid d = Sql.Done (d', k) -> wf d'.
Proof.
  intros Hwf [s Hp] Hc. unfold update_plan_where.
  destruct (first_violation _ _ _) eqn:V; [discriminate|].
  intros E; inversion E; subst; clear E.
  apply rewrite_wf; auto.
  intros r Hr Hh _.
  rewrite first_violation_none in V. specialize (V r Hr Hh).
  apply violation_none in V. destruct V as (Ht & Hd & Ha & Hk).
  constructor; auto.
  simpl in Hk |- *. rewrite Hp in Hk |- *. now apply check_priority_text.
Qed.

Lemma delete_wf (pid : Sql.value) (d d' : db) (k : Z) :
  wf d -> delete_where pid d = Sql.Done (d', k) -> wf d'.
Proof.
  intros [Hseq Hrows Hids Hord] E. inversion E; subst; clear E.
  constructor; simpl; auto.
  - rewrite Forall_forall in *. intros y Hy. apply filter_In in Hy. apply Hrows, Hy.
  - rewrite Forall_forall in *. intros y Hy. apply filter_In in Hy. apply Hids, Hy.
  - now apply sorted_filter.
Qed.

Lemma toggle_wf (c pid : Sql.value) (d d' : db) (k : Z) :
  wf d -> flag_ok c -> update_completed_where c pid d = Sql.Done (d', k) -> wf d'.
Proof.
  intros Hwf Hc E. inversion E; subst; clear E.
  apply rewrite_wf; auto.
  intros r _ _ [H1 H2 H3 H4 H5]. constructor; auto.
Qed.

Lemma step_wf (d : db) (r : request) : wf d -> wf (step d r).
Proof.
  intros Hwf. destruct r as [|i|now js_now b|i b|i|i|]; simpl; auto.
  - unfold get_plan. destruct (select_by_id _ _); auto.
  - unfold create_plan. destruct (missing_required b); auto.
    destruct (insert_plan _ _ _ _ _ _ _) as [[d' k]|e] eqn:E; auto.
    simpl. eapply insert_wf; eauto using priority_cell.
  - unfold update_plan.
    destruct (update_plan_where _ _ _ _ _ _ _ _) as [[d' k]|e] eqn:E; auto.
    assert (wf d') by (eapply update_wf; eauto using priority_cell, flag_bound).
    destruct (k =? 0); auto.
  - unfold delete_plan.
    destruct (delete_where _ _) as [[d' k]|e] eqn:E; auto.
    assert (wf d') by (eapply delete_wf; eauto).
    destruct (k =? 0); auto.
  - unfold toggle_plan. destruct (select_by_id _ _); auto.
    destruct (update_completed_where _ _ _) as [[d' k]|e] eqn:E; auto.
    simpl. eapply toggle_wf; eauto using flag_bound.
Qed.

Lemma run_wf (rs : list request) (d : db) : wf d -> wf (run rs d).
Proof.
  revert d. induction rs as [|r rs IH]; intros d H; simpl; auto.
  apply IH, step_wf, H.
Qed.

Lemma reachable_wf (d : db) : reachable d -> wf d.
Proof. intros [rs ->]. apply run_wf, wf_empty. Qed.

Lemma reachable_step (d : db) (r : request) : reachable d -> reachable (step d r).
Proof.
  intros [rs ->]. exists (rs ++ [r]). unfold run. now rewrite fold_left_app.
Qed.

End Invariant.

(** ** The contract *)

Section Create.

Lemma absent_or_empty_falsy (v : JS.value) :
  absent_or_empty v -> JS.truthy v = false.
Proof. intros [[-> | ->] | ->]; reflexivity. Qed.

Lemma nonempty_text_truthy (v : JS.value) :
  nonempty_text v -> JS.truthy v = true.
Proof.
  intros (s & -> & Hs). simpl. apply negb_true_iff, String.eqb_neq, Hs.
Qed.

Lemma missing_required_false (b : body) :
  missing_required b = false <->
  JS.truthy (b_title b) = true /\ JS.truthy (b_deadline b) = true /\
  JS.truthy (b_author b) = true.
Proof.
  unfold missing_required, JS.not.
  destruct (JS.truthy (b_title b)), (JS.truthy (b_deadline b)),
           (JS.truthy (b_author b)); simpl; intuition congruence.
Qed.

Lemma create_rejects (now js_now : Z) (b : body) (d : db) :
  create_plan now js_now b d = (ValidationError, d) <-> missing_required b = true.
Proof.
  unfold create_plan. destruct (missing_required b); split; auto; intros H.
  - destruct (insert_plan _ _ _ _ _ _ _) as [[d' k]|e]; discriminate.
  - discriminate.
Qed.

(** C1.  A create request whose title, deadline or author is absent
    ([undefined], [null]) or the empty string is answered with the validation
    error (status 400) and the table is left as it was; a create request
    whose title, deadline and author are present and non-empty texts passes
    the validation check.  More precisely the validation error is sent
    exactly when the guard [!title || !deadline || !author] fires, and the
    guard lets a request through exactly when the three fields are truthy. *)
Theorem create_validation (now js_now : Z) (b : body) (d : db) :
  (absent_or_empty (b_title b) \/ absent_or_empty (b_deadline b) \/
   absent_or_empty (b_author b) ->
   create_plan now js_now b d = (ValidationError, d) /\
   status (fst (create_plan now js_now b d)) = 400) /\
  (create_plan now js_now b d = (ValidationError, d) <->
   missing_required b = true) /\
  (missing_required b = false <->
   JS.truthy (b_title b) = true /\ JS.truthy (b_deadline b) = true /\
   JS.truthy (b_author b) = true) /\
  (nonempty_text (b_title b) -> nonempty_text (b_deadline b) ->
   nonempty_text (b_author b) -> missing_required b = false).
Proof.
  split; [|split; [|split]].
  - intros H.
    assert (E : create_plan now js_now b d = (ValidationError, d)).
    { apply create_rejects. unfold missing_required, JS.not.
      destruct H as [H | [H | H]]; apply absent_or_empty_falsy in H;
        rewrite H; simpl; rewrite ?orb_true_r; reflexivity. }
    rewrite E. auto.
  - apply create_rejects.
  - apply missing_required_false.
  - intros Ht Hd Ha. apply missing_required_false.
    auto using nonempty_text_truthy.
Qed.

(** C1, at a request without author and at the scenario's request. *)
Lemma create_validation_witness :
  create_plan 100 100000 (with_author JS.Undefined ship_release) one_plan
    = (ValidationError, one_plan) /\
  missing_required ship_release = false.
Proof.
  split.
  - refine (proj1 (proj1 (create_validation 100 100000
                            (with_author JS.Undefined ship_release) one_plan) _)).
    right; right; left; left; reflexivity.
  - refine (proj2 (proj2 (proj2 (create_validation 100 100000
                                   ship_release one_plan))) _ _ _).
    + exists "Ship release"; split; [reflexivity | discriminate].
    + exists "2024-06-01"; split; [reflexivity | discriminate].
    + exists "alice"; split; [reflexivity | discriminate].
Defined.

(** Outside the texts the data model gives the three fields: a title given
    as the number 0 is falsy, and the request is turned away with status 400
    as well. *)
Lemma create_zero_title_rejected :
  ~ absent_or_empty (b_title (with_title (JS.Num 0) ship_release)) /\
  ~ absent_or_empty (b_deadline (with_title (JS.Num 0) ship_release)) /\
  ~ absent_or_empty (b_author (with_title (JS.Num 0) ship_release)) /\
  missing_required (with_title (JS.Num 0) ship_release) = true /\
  create_plan 100 100000 (with_title (JS.Num 0) ship_release) empty_db
    = (ValidationError, empty_db).
Proof.
  repeat split; try reflexivity;
    intros [[H | H] | H]; discriminate H.
Qed.

End Create.

Section Stats.

(** C3, at the empty table.  The statistics operation answers with
    [total] 0, and with NULL, not the count 0, for both [completed] and
    [high_priority]: [SUM] over no rows is NULL, [COUNT] is 0. *)
Theorem stats_empty_db :
  get_stats empty_db =
  (Ok200 {| total := Sql.Int 0;
            completed_count := Sql.Null;
            high_priority := Sql.Null |}, empty_db).
Proof. reflexivity. Qed.

End Stats.

(** ** One key, one row *)

Section OneRow.

Variable p : Sql.value.

Lemma sorted_hit_tail (x : plan) (l : list plan) :
  StronglySorted by_id (x :: l) -> hit p x = true -> no_hit p l.
Proof.
  intros Hs Hx r Hr. apply StronglySorted_inv in Hs. destruct Hs as [_ Hall].
  rewrite Forall_forall in Hall. specialize (Hall _ Hr). unfold by_id in Hall.
  destruct (hit p r) eqn:E; auto.
  pose proof (hit_same_id _ _ _ Hx E). lia.
Qed.

Lemma find_hit_unique (l : list plan) (row r : plan) :
  StronglySorted by_id l -> find (hit p) l = Some row ->
  In r l -> hit p r = true -> r = row.
Proof.
  intros Hs Hf Hr Hh. apply find_some in Hf. destruct Hf as [Hin Hrow].
  apply (sorted_unique l); auto. eapply hit_same_id; eauto.
Qed.

Lemma first_violation_one (f : plan -> plan) (l : list plan) (row : plan) :
  StronglySorted by_id l -> find (hit p) l = Some row ->
  first_violation p f l = violation (f row).
Proof.
  induction l as [|x l IH]; simpl; intros Hs Hf; [discriminate|].
  destruct (hit p x) eqn:E.
  - inversion Hf; subst.
    rewrite (no_hit_first_violation p f l (sorted_hit_tail _ _ Hs E)).
    destruct (violation (f row)); reflexivity.
  - apply IH; auto. apply StronglySorted_inv in Hs. tauto.
Qed.

Lemma changes_one (l : list plan) (row : plan) :
  StronglySorted by_id l -> find (hit p) l = Some row -> changes_of p l = 1.
Proof.
  intros Hs Hf. pose proof (changes_range p l Hs) as Hr.
  destruct (Z.eq_dec (changes_of p l) 0) as [E|E]; [|lia].
  apply no_hit_changes, no_hit_find in E. congruence.
Qed.

Lemma find_rewrite (f : plan -> plan) (l : list plan) :
  (forall r, id (f r) = id r) ->
  find (hit p) (rewrite_where p f l) = option_map f (find (hit p) l).
Proof.
  intros Hid. induction l as [|x l IH]; simpl; auto.
  destruct (hit p x) eqn:E.
  - unfold hit in *. rewrite Hid, E. reflexivity.
  - rewrite E. exact IH.
Qed.

Lemma find_delete (l : list plan) :
  find (hit p) (filter (fun r => negb (hit p r)) l) = None.
Proof.
  apply no_hit_find. intros r Hr. apply filter_In in Hr.
  destruct Hr as [_ Hr]. now apply negb_true_iff in Hr.
Qed.

Lemma rewrite_twice (f g : plan -> plan) (l : list plan) :
  (forall r, id (f r) = id r) ->
  rewrite_where p g (rewrite_where p f l) = rewrite_where p (fun r => g (f r)) l.
Proof.
  intros Hid. unfold rewrite_where. rewrite map_map. apply map_ext.
  intros r. destruct (hit p r) eqn:E.
  - unfold hit in *. rewrite Hid, E. reflexivity.
  - rewrite E. reflexivity.
Qed.

Lemma rewrite_fixed (f : plan -> plan) (l : list plan) :
  (forall r, In r l -> hit p r = true -> f r = r) -> rewrite_where p f l = l.
Proof.
  intros H. unfold rewrite_where. rewrite <- (map_id l) at 2.
  apply map_ext_in. intros r Hr. destruct (hit p r) eqn:E; auto.
Qed.



End OneRow.

Lemma db_eta (d : db) : {| plans := plans d; seq := seq d |} = d.
Proof. destruct d; reflexivity. Qed.

Lemma set_completed_same (r : plan) : set_completed (completed r) r = r.
Proof. destruct r; reflexivity. Qed.

Lemma set_completed_twice (c c' : Sql.value) (r : plan) :
  set_completed c (set_completed c' r) = set_completed c r.
Proof. reflexivity. Qed.

(** ** What the constraints accept *)

Section Constraints.

Lemma bind_null (v : JS.value) : Sql.bind v = Sql.Null <-> absent v.
Proof.
  unfold absent. destruct v; simpl; split; intros H;
    try discriminate; auto; destruct H; discriminate.
Qed.

(** The decimal text of a number is none of the three priorities. *)
Lemma decimal_not_priority (z : Z) :
  check_priority (Sql.text_affinity (Sql.Int z)) = false.
Proof.
  simpl. destruct (Z.to_int z) as [u|u]; destruct u; reflexivity.
Qed.

Lemma priority_check (v : JS.value) :
  check_priority (Sql.text_affinity (Sql.bind (JS.or v (JS.Str "medium")))) = true
  <-> accepted_priority v.
Proof.
  unfold accepted_priority, JS.or.
  destruct (JS.truthy v) eqn:T.
  - destruct v as [| |b|n|s]; simpl in T; try discriminate.
    + subst b. simpl. split; [discriminate|].
      intros [H | [H | [H | [H | []]]]]; discriminate.
    + change (Sql.bind (JS.Num n)) with (Sql.Int n).
      rewrite decimal_not_priority. split; [discriminate|].
      intros [H | [H | [H | [H | []]]]]; discriminate.
    + simpl. rewrite !orb_true_iff, !String.eqb_eq. split.
      * intros [[H | H] | H]; subst; right; simpl; auto.
      * intros [H | [H | [H | [H | []]]]]; try discriminate;
          inversion H; auto.
  - simpl. split; auto.
Qed.

Lemma violation_new_row (b : body) (r : plan) :
  violation (new_row b r) = None <-> storable b.
Proof.
  rewrite violation_none. unfold new_row, storable. simpl.
  rewrite priority_check, !text_affinity_null, numeric_affinity_null, !bind_null.
  tauto.
Qed.

Lemma not_storable_violation (b : body) (r : plan) :
  ~ storable b -> exists e, violation (new_row b r) = Some e.
Proof.
  intros H. destruct (violation (new_row b r)) as [e|] eqn:V; eauto.
  apply violation_new_row in V. contradiction.
Qed.

End Constraints.

(** ** The handlers, case by case *)

Section Handlers.

Variable i : string.

Lemma get_unmatched (d : db) : unmatched i d -> get_plan i d = (NotFound, d).
Proof.
  intros H. unfold get_plan, select_by_id.
  now rewrite (proj1 (no_hit_find _ _) H).
Qed.

Lemma update_unmatched (b : body) (d : db) :
  unmatched i d -> update_plan i b d = (NotFound, d).
Proof.
  intros H. unfold update_plan, update_plan_where.
  rewrite (no_hit_first_violation _ _ _ H).
  rewrite (proj1 (no_hit_changes _ _) H), (no_hit_rewrite _ _ _ H), db_eta.
  reflexivity.
Qed.

Lemma delete_unmatched (d : db) :
  unmatched i d -> delete_plan i d = (NotFound, d).
Proof.
  intros H. unfold delete_plan, delete_where.
  rewrite (proj1 (no_hit_changes _ _) H), (no_hit_keep _ _ H), db_eta.
  reflexivity.
Qed.

Lemma toggle_unmatched (d : db) :
  unmatched i d -> toggle_plan i d = (NotFound, d).
Proof.
  intros H. unfold toggle_plan, select_by_id.
  now rewrite (proj1 (no_hit_find _ _) H).
Qed.

(** The PUT handler on a stored plan: the constraints decide. *)
Lemma update_matched (b : body) (d : db) (row : plan) :
  wf d -> select_by_id (param i) d = Some row ->
  update_plan i b d =
  match violation (new_row b row) with
  | Some e => (StorageError e, d)
  | None =>
      (Ok200 {| ch_message := PlanUpdated; ch_changes := 1 |},
       {| plans := rewrite_where (param i) (new_row b) (plans d);
          seq := seq d |})
  end.
Proof.
  intros Hwf Hf. unfold update_plan, update_plan_where, new_row.
  rewrite (first_violation_one _ _ _ _ (wf_order _ Hwf) Hf).
  destruct (violation _); auto.
  rewrite (changes_one _ _ _ (wf_order _ Hwf) Hf). reflexivity.
Qed.

Lemma delete_matched (d : db) (row : plan) :
  wf d -> select_by_id (param i) d = Some row ->
  delete_plan i d =
  (Ok200 {| ch_message := PlanDeleted; ch_changes := 1 |},
   {| plans := filter (fun r => negb (hit (param i) r)) (plans d);
      seq := seq d |}).
Proof.
  intros Hwf Hf. unfold delete_plan, delete_where.
  rewrite (changes_one _ _ _ (wf_order _ Hwf) Hf). reflexivity.
Qed.

Lemma toggle_matched (d : db) (row : plan) :
  wf d -> select_by_id (param i) d = Some row ->
  toggle_plan i d =
  (Ok200 {| t_completed := JS.not (Sql.to_js (completed row)); t_changes := 1 |},
   {| plans := rewrite_where (param i)
                 (set_completed (Sql.bind (flag (JS.not (Sql.to_js (completed row))))))
                 (plans d);
      seq := seq d |}).
Proof.
  intros Hwf Hf. unfold toggle_plan. rewrite Hf.
  unfold update_completed_where.
  rewrite (changes_one _ _ _ (wf_order _ Hwf) Hf). reflexivity.
Qed.

(** Either a key selects no row or [db.get] finds the one it selects. *)
Lemma matched_or_not (d : db) :
  unmatched i d \/ exists row, select_by_id (param i) d = Some row.
Proof.
  unfold unmatched, select_by_id.
  destruct (find (hit (param i)) (plans d)) eqn:E; eauto.
  left. now apply no_hit_find.
Qed.

Lemma stored_row_ok (d : db) (row : plan) :
  wf d -> select_by_id (param i) d = Some row -> row_ok row.
Proof.
  intros Hwf Hf. apply find_some in Hf. destruct Hf as [Hin _].
  pose proof (wf_rows _ Hwf) as H. rewrite Forall_forall in H. auto.
Qed.

End Handlers.

Section NotFoundAndFrame.



Lemma update_plans (i : string) (b : body) (d : db) :
  plans (snd (update_plan i b d)) = plans d \/
  plans (snd (update_plan i b d)) = rewrite_where (param i) (new_row b) (plans d).
Proof.
  unfold update_plan, update_plan_where, new_row.
  destruct (first_violation _ _ _); auto.
  destruct (_ =? 0); auto.
Qed.

Lemma toggle_plans (i : string) (d : db) :
  plans (snd (toggle_plan i d)) = plans d \/
  exists c, plans (snd (toggle_plan i d))
            = rewrite_where (param i) (set_completed c) (plans d).
Proof.
  unfold toggle_plan. destruct (select_by_id _ _); auto.
  right. eexists. reflexivity.
Qed.

Lemma delete_plans (i : string) (d : db) :
  plans (snd (delete_plan i d))
  = filter (fun r => negb (hit (param i) r)) (plans d).
Proof.
  unfold delete_plan, delete_where. destruct (_ =? 0); reflexivity.
Qed.

Lemma get_keeps (i : string) (d : db) : snd (get_plan i d) = d.
Proof. unfold get_plan. destruct (select_by_id _ _); reflexivity. Qed.


End NotFoundAndFrame.


Section Update.




End Update.

Section UpdateCompleted.

(** C9 (as the code has it).  On a stored plan, an update whose body passes
    the table's constraints leaves the [completed] column at 0 when the
    body's [completed] is absent or falsy and at 1 when it is truthy.  An
    update whose body does not pass them is answered with status 500 and
    writes nothing, [completed] included. *)
Theorem update_sets_completed (i : string) (b : body) (d : db) (row : plan) :
  reachable d -> select_by_id (param i) d = Some row ->
  (storable b ->
   exists row',
     status (fst (update_plan i b d)) = 200 /\
     select_by_id (param i) (snd (update_plan i b d)) = Some row' /\
     (b_completed b = JS.Undefined -> completed row' = Sql.Int 0) /\
     (JS.truthy (b_completed b) = false -> completed row' = Sql.Int 0) /\
     (JS.truthy (b_completed b) = true -> completed row' = Sql.Int 1)) /\
  (~ storable b ->
   status (fst (update_plan i b d)) = 500 /\ snd (update_plan i b d) = d).
Proof.
  intros Hr Hf. apply reachable_wf in Hr.
  rewrite (update_matched i b d row Hr Hf). split.
  - intros Hs. rewrite (proj2 (violation_new_row b row) Hs).
    exists (new_row b row). split; [reflexivity|]. split.
    { unfold select_by_id in *. simpl.
      rewrite find_rewrite by reflexivity. now rewrite Hf. }
    simpl. repeat split; intros ->; reflexivity.
  - intros Hs. destruct (not_storable_violation b row Hs) as [e ->].
    split; reflexivity.
Qed.

(** C9, at plan 1 and the scenario's body with [completed: true]. *)
Lemma update_sets_completed_witness :
  exists row',
    select_by_id (param "1")
      (snd (update_plan "1" (with_completed (JS.Bool true) ship_release) one_plan))
      = Some row' /\
    completed row' = Sql.Int 1.
Proof.
  assert (Hs : storable (with_completed (JS.Bool true) ship_release)).
  { repeat split; try (intros [H | H]; discriminate H). left; reflexivity. }
  destruct (proj1 (update_sets_completed "1"
                     (with_completed (JS.Bool true) ship_release) one_plan
                     (mkPlan 1 (Sql.Text "Ship release") (Sql.Text "")
                        (Sql.Text "medium") (Sql.Text "2024-06-01")
                        (Sql.Text "alice") (Sql.Int 0) 100)
                     (ex_intro _ [CreatePlan 100 100000 ship_release] eq_refl)
                     eq_refl) Hs)
    as (row' & _ & H1 & _ & _ & H2).
  exists row'. split; [exact H1 | apply H2; reflexivity].
Defined.

(** C9 as stated fails: plan 1 exists with [completed] 0, the body has
    [completed: true] and priority ['urgent'], and after the update the
    column is still 0. *)
Lemma update_rejected_keeps_flag :
  JS.truthy (b_completed (with_completed (JS.Bool true)
                            (with_priority (JS.Str "urgent") ship_release))) = true /\
  option_map completed (select_by_id (param "1") one_plan) = Some (Sql.Int 0) /\
  option_map completed
    (select_by_id (param "1")
       (snd (update_plan "1"
               (with_completed (JS.Bool true)
                  (with_priority (JS.Str "urgent") ship_release)) one_plan)))
    = Some (Sql.Int 0).
Proof. repeat split. Qed.

End UpdateCompleted.

Section Toggle.

Lemma flag_cases (r : plan) :
  row_ok r -> exists was : bool, completed r = Sql.Int (if was then 1 else 0).
Proof.
  intros H. destruct (completed_flag r H) as [E | E].
  - exists false. exact E.
  - exists true. exact E.
Qed.

Lemma not_flag (was : bool) :
  JS.not (Sql.to_js (Sql.Int (if was then 1 else 0))) = negb was.
Proof. destruct was; reflexivity. Qed.

(** C6.  On a stored plan, one toggle answers with the negation of the
    stored flag, reports [changes: 1] and stores that negation; a second
    toggle with the same identifier, run after the first, answers with the
    original flag and puts the database back exactly as it was. *)
Theorem toggle_twice (i : string) (d : db) (row : plan) :
  reachable d -> select_by_id (param i) d = Some row ->
  exists (was : bool) (d1 : db),
    completed row = Sql.Int (if was then 1 else 0) /\
    toggle_plan i d
      = (Ok200 {| t_completed := negb was; t_changes := 1 |}, d1) /\
    select_by_id (param i) d1
      = Some (set_completed (Sql.Int (if negb was then 1 else 0)) row) /\
    toggle_plan i d1
      = (Ok200 {| t_completed := was; t_changes := 1 |}, d).
Proof.
  intros Hr Hf. apply reachable_wf in Hr.
  destruct (flag_cases row (stored_row_ok i d row Hr Hf)) as [was Hc].
  pose proof (toggle_matched i d row Hr Hf) as T1.
  rewrite Hc, not_flag in T1.
  change (Sql.bind (flag (negb was)))
    with (Sql.Int (if negb was then 1 else 0)) in T1.
  set (c1 := Sql.Int (if negb was then 1 else 0)) in *.
  set (d1 := {| plans := rewrite_where (param i) (set_completed c1) (plans d);
                seq := seq d |}) in *.
  assert (Hwf1 : wf d1).
  { replace d1 with (step d (TogglePlan i)) by (simpl; now rewrite T1).
    now apply step_wf. }
  assert (Hf1 : select_by_id (param i) d1 = Some (set_completed c1 row)).
  { unfold select_by_id in *. simpl.
    rewrite find_rewrite by reflexivity. now rewrite Hf. }
  exists was, d1. repeat split; auto.
  rewrite (toggle_matched i d1 _ Hwf1 Hf1). simpl.
  replace (JS.not (JS.Num (if negb was then 1 else 0))) with was
    by (destruct was; reflexivity).
  rewrite rewrite_twice by reflexivity.
  rewrite rewrite_fixed, db_eta; [reflexivity|].
  intros r Hin Hh.
  rewrite (find_hit_unique _ _ _ _ (wf_order _ Hr) Hf Hin Hh).
  rewrite set_completed_twice, <- Hc. apply set_completed_same.
Qed.

(** C6, at plan 1 of the scenario. *)
Lemma toggle_twice_witness :
  exists (was : bool) (d1 : db),
    toggle_plan "1" one_plan
      = (Ok200 {| t_completed := negb was; t_changes := 1 |}, d1) /\
    toggle_plan "1" d1
      = (Ok200 {| t_completed := was; t_changes := 1 |}, one_plan).
Proof.
  destruct (toggle_twice "1" one_plan
              (mkPlan 1 (Sql.Text "Ship release") (Sql.Text "")
                 (Sql.Text "medium") (Sql.Text "2024-06-01")
                 (Sql.Text "alice") (Sql.Int 0) 100)
              (ex_intro _ [CreatePlan 100 100000 ship_release] eq_refl)
              eq_refl)
    as (was & d1 & _ & H1 & _ & H2).
  exists was, d1. split; assumption.
Defined.

End Toggle.

(** ** The listing *)

Section Listing.

Lemma insert_desc_perm (r : plan) (l : list plan) :
  Permutation (r :: l) (insert_desc r l).
Proof.
  induction l as [|x l IH]; simpl; auto.
  destruct (created_at r <? created_at x); auto.
  rewrite perm_swap. now constructor.
Qed.

Lemma order_perm (l : list plan) : Permutation l (order_by_created_at_desc l).
Proof.
  induction l as [|x l IH]; simpl; auto.
  rewrite <- insert_desc_perm. now constructor.
Qed.

Lemma insert_desc_sorted (r : plan) (l : list plan) :
  StronglySorted newest_first l -> StronglySorted newest_first (insert_desc r l).
Proof.
  induction 1 as [|x l Hs IH Hx]; simpl.
  - constructor; constructor.
  - destruct (created_at r <? created_at x) eqn:E.
    + apply Z.ltb_lt in E. constructor; auto.
      rewrite <- insert_desc_perm. constructor; auto.
      unfold newest_first. lia.
    + apply Z.ltb_ge in E. constructor.
      * now constructor.
      * constructor; [unfold newest_first; lia|].
        eapply Forall_impl; [|exact Hx].
        unfold newest_first. intros; lia.
Qed.

Lemma order_sorted (l : list plan) :
  StronglySorted newest_first (order_by_created_at_desc l).
Proof.
  induction l as [|x l IH]; simpl; [constructor|].
  now apply insert_desc_sorted.
Qed.

(** In a listing by [created_at] descending, a strictly newer row stands
    before an older one. *)
Lemma sorted_before (l : list plan) (a b : plan) :
  StronglySorted newest_first l -> In a l -> In b l ->
  created_at a < created_at b -> before b a l.
Proof.
  induction 1 as [|x l Hs IH Hx]; intros Ha Hb Hlt; [contradiction|].
  rewrite Forall_forall in Hx. unfold newest_first in Hx.
  destruct Hb as [<- | Hb].
  - destruct Ha as [<- | Ha]; [lia|].
    apply in_split in Ha. destruct Ha as (l2 & l3 & ->).
    exists [], l2, l3. reflexivity.
  - destruct Ha as [<- | Ha].
    + specialize (Hx _ Hb). lia.
    + destruct (IH Ha Hb Hlt) as (l1 & l2 & l3 & ->).
      exists (x :: l1), l2, l3. reflexivity.
Qed.

(** A create that answers 200 appended one row, with the answered key and
    the store's clock reading. *)
Lemma create_appends (now js_now : Z) (b : body) (d d' : db) (c : created) :
  create_plan now js_now b d = (Ok200 c, d') ->
  exists row, plans d' = plans d ++ [row] /\ id row = c_id c /\
              created_at row = now.
Proof.
  unfold create_plan. destruct (missing_required b); [discriminate|].
  unfold insert_plan. destruct (Sql.max_rowid <=? seq d); [discriminate|].
  match goal with |- context [violation ?r] => set (row := r) end.
  destruct (violation row); [discriminate|].
  intros E; inversion E; subst; clear E. exists row. auto.
Qed.

(** C7 (as the code has it).  The list operation answers with all stored
    plans, each once, in non-increasing order of [created_at]; so of two
    stored plans with different [created_at] the newer stands first, and in
    particular, of two plans created one after the other at clock seconds
    [now1 < now2], the later-created stands before the earlier one. *)
Theorem list_newest_first (d : db) :
  exists rows,
    list_plans d = (Ok200 rows, d) /\
    Permutation (plans d) rows /\
    StronglySorted newest_first rows /\
    (forall a b, In a (plans d) -> In b (plans d) ->
                 created_at a < created_at b -> before b a rows) /\
    (forall now1 js1 b1 c1 d1 now2 js2 b2 c2 d2,
       create_plan now1 js1 b1 d = (Ok200 c1, d1) ->
       create_plan now2 js2 b2 d1 = (Ok200 c2, d2) ->
       now1 < now2 ->
       exists r1 r2,
         id r1 = c_id c1 /\ id r2 = c_id c2 /\
         In r1 (plans d2) /\ In r2 (plans d2) /\
         before r2 r1 (select_all d2)).
Proof.
  exists (select_all d). unfold list_plans, select_all.
  split; [reflexivity|]. split; [apply order_perm|].
  split; [apply order_sorted|]. split.
  - intros a b Ha Hb Hlt.
    apply sorted_before; auto using order_sorted;
      eapply Permutation_in; eauto using order_perm.
  - intros now1 js1 b1 c1 d1 now2 js2 b2 c2 d2 E1 E2 Hlt.
    destruct (create_appends _ _ _ _ _ _ E1) as (r1 & P1 & I1 & T1).
    destruct (create_appends _ _ _ _ _ _ E2) as (r2 & P2 & I2 & T2).
    assert (H1 : In r1 (plans d2))
      by (rewrite P2, P1; apply in_or_app; left; apply in_or_app; right; now left).
    assert (H2 : In r2 (plans d2))
      by (rewrite P2; apply in_or_app; right; now left).
    exists r1, r2. repeat split; auto.
    apply sorted_before; auto using order_sorted;
      try (eapply Permutation_in; eauto using order_perm).
    lia.
Qed.

(** C7, at two creates one second apart on a new database. *)
Lemma list_newest_first_witness :
  exists r1 r2,
    id r1 = 1 /\ id r2 = 2 /\
    before r2 r1
      (select_all (run [CreatePlan 100 100000 ship_release;
                        CreatePlan 101 101000 ship_release] empty_db)).
Proof.
  destruct (list_newest_first empty_db) as (rows & _ & _ & _ & _ & H).
  destruct (H 100 100000 ship_release _ _ 101 101000 ship_release _ _
              eq_refl eq_refl eq_refl)
    as (r1 & r2 & H1 & H2 & _ & _ & H3).
  exists r1, r2. auto.
Defined.

(** C7 as stated fails: of two plans created one after the other within
    the same second, the later-created one (key 2) is listed after the
    earlier one (key 1). *)
Lemma list_same_second_oldest_first :
  (exists c1 d1 c2,
     create_plan 100 100000 ship_release empty_db = (Ok200 c1, d1) /\
     create_plan 100 100400 (with_title (JS.Str "Write notes") ship_release) d1
       = (Ok200 c2, two_plans) /\
     c_id c1 = 1 /\ c_id c2 = 2) /\
  map id (select_all two_plans) = [1; 2] /\
  map title (select_all two_plans)
    = [Sql.Text "Ship release"; Sql.Text "Write notes"].
Proof.
  split; [|split; reflexivity].
  do 3 eexists. repeat split.
Qed.

End Listing.

(** ** The priority enumeration *)

Section Priority.

Lemma not_accepted (v : JS.value) :
  JS.truthy v = true -> ~ In v priorities ->
  check_priority (Sql.text_affinity (Sql.bind (JS.or v (JS.Str "medium")))) = false.
Proof.
  intros T N.
  destruct (check_priority _) eqn:E; auto.
  apply priority_check in E. destruct E as [E | E]; [congruence | contradiction].
Qed.

Lemma truthy_cell (v : JS.value) :
  JS.truthy v = true -> Sql.is_null (Sql.text_affinity (Sql.bind v)) = false.
Proof. destruct v; simpl; congruence. Qed.

Lemma truthy_date_cell (v : JS.value) :
  JS.truthy v = true -> Sql.is_null (Sql.numeric_affinity (Sql.bind v)) = false.
Proof.
  intros T. apply is_null_false. rewrite numeric_affinity_null.
  now apply bind_truthy_not_null.
Qed.

(** C8 (as the code has it).  In every reachable database every stored
    plan has priority ['low'], ['medium'] or ['high'].  A create request that
    passes validation and gives a truthy priority other than those three
    texts is refused by the store (the CHECK constraint, when a key is still
    to be had) and nothing is inserted; a request whose priority is falsy is
    stored with ['medium']. *)
Theorem priority_enumerated :
  (forall d r, reachable d -> In r (plans d) -> priority_ok (priority r)) /\
  (forall now js_now b d,
     missing_required b = false ->
     JS.truthy (b_priority b) = true -> ~ In (b_priority b) priorities ->
     create_plan now js_now b d
     = (StorageError (if Sql.max_rowid <=? seq d then Sql.FULL
                      else Sql.CONSTRAINT_CHECK), d)) /\
  (forall now js_now b d c d',
     JS.truthy (b_priority b) = false ->
     create_plan now js_now b d = (Ok200 c, d') ->
     c_priority c = JS.Str "medium" /\
     exists row, plans d' = plans d ++ [row] /\ priority row = Sql.Text "medium").
Proof.
  split; [|split].
  - intros d r Hr Hin. apply reachable_wf in Hr.
    pose proof (wf_rows _ Hr) as H. rewrite Forall_forall in H.
    apply (priority_enum r (H r Hin)).
  - intros now js_now b d Hm T N.
    apply missing_required_false in Hm. destruct Hm as (Ht & Hd & Ha).
    unfold create_plan.
    rewrite (proj2 (missing_required_false b) (conj Ht (conj Hd Ha))).
    unfold insert_plan. destruct (Sql.max_rowid <=? seq d); [reflexivity|].
    unfold violation. simpl.
    rewrite (truthy_cell _ Ht), (truthy_date_cell _ Hd), (truthy_cell _ Ha),
            (not_accepted _ T N).
    reflexivity.
  - intros now js_now b d c d' F.
    unfold create_plan. destruct (missing_required b); [discriminate|].
    unfold insert_plan. destruct (Sql.max_rowid <=? seq d); [discriminate|].
    match goal with |- context [violation ?r] => set (row := r) end.
    destruct (violation row); [discriminate|].
    intros E; inversion E; subst; clear E. simpl.
    unfold JS.or. rewrite F. split; [reflexivity|].
    exists row. split; [reflexivity|]. unfold row. simpl.
    unfold JS.or. rewrite F. reflexivity.
Qed.

(** C8, at the stored plan of the scenario and at a create with priority
    ['urgent']. *)
Lemma priority_enumerated_witness :
  priority_ok (Sql.Text "medium") /\
  create_plan 100 100000 (with_priority (JS.Str "urgent") ship_release) one_plan
    = (StorageError Sql.CONSTRAINT_CHECK, one_plan).
Proof.
  split.
  - refine (proj1 priority_enumerated one_plan
              (mkPlan 1 (Sql.Text "Ship release") (Sql.Text "")
                 (Sql.Text "medium") (Sql.Text "2024-06-01")
                 (Sql.Text "alice") (Sql.Int 0) 100) _ _).
    + exists [CreatePlan 100 100000 ship_release]. reflexivity.
    + left. reflexivity.
  - refine (proj1 (proj2 priority_enumerated) 100 100000
              (with_priority (JS.Str "urgent") ship_release) one_plan _ _ _).
    + reflexivity.
    + reflexivity.
    + intros [H | [H | [H | []]]]; discriminate H.
Defined.

(** C8 as stated fails: a create request that gives priority 0, a value
    outside the enumeration, is not refused; it is stored with ['medium']. *)
Lemma create_zero_priority_accepted :
  b_priority (with_priority (JS.Num 0) ship_release) <> JS.Undefined /\
  ~ In (b_priority (with_priority (JS.Num 0) ship_release)) priorities /\
  create_plan 100 100000 (with_priority (JS.Num 0) ship_release) empty_db
  = (Ok200 (mkCreated 1 (JS.Str "Ship release") (JS.Str "") (JS.Str "medium")
              (JS.Str "2024-06-01") (JS.Str "alice") false 100000),
     {| plans := [mkPlan 1 (Sql.Text "Ship release") (Sql.Text "")
                    (Sql.Text "medium") (Sql.Text "2024-06-01")
                    (Sql.Text "alice") (Sql.Int 0) 100];
        seq := 1 |}).
Proof.
  split; [discriminate|]. split; [|reflexivity].
  intros [H | [H | [H | []]]]; discriminate H.
Qed.

End Priority.

(** ** Statistics on a table with rows *)

Section StatsCounts.

Lemma sum_indicator (f : plan -> bool) (l : list plan) :
  fold_right Z.add 0 (map (fun r => if f r then 1 else 0) l) = count_rows f l.
Proof.
  unfold count_rows. induction l as [|x l IH]; simpl; auto.
  rewrite IH. destruct (f x); simpl List.length; lia.
Qed.

Lemma count_rows_le (f : plan -> bool) (l : list plan) :
  0 <= count_rows f l <= Z.of_nat (List.length l).
Proof.
  unfold count_rows. pose proof (filter_length_le f l). lia.
Qed.

(** X1.  On a table with at least one row the statistics are the three counts:
    all rows, the rows whose [completed] is 1, the rows whose priority is
    ['high']; neither of the two exceeds the total. *)
Theorem stats_counts (d : db) :
  plans d <> [] ->
  get_stats d
  = (Ok200 {| total := Sql.Int (Z.of_nat (List.length (plans d)));
              completed_count := Sql.Int (count_rows is_completed (plans d));
              high_priority := Sql.Int (count_rows is_high (plans d)) |}, d) /\
  count_rows is_completed (plans d) <= Z.of_nat (List.length (plans d)) /\
  count_rows is_high (plans d) <= Z.of_nat (List.length (plans d)).
Proof.
  intros Hne. split; [|split; apply count_rows_le].
  unfold get_stats, select_stats, Sql.count, Sql.sum.
  rewrite <- !sum_indicator. unfold is_completed, is_high.
  destruct (plans d); [contradiction | reflexivity].
Qed.

(** The statistics of the scenario's table after its one plan is toggled. *)
Lemma stats_counts_witness :
  get_stats (snd (toggle_plan "1" one_plan))
  = (Ok200 {| total := Sql.Int 1;
              completed_count := Sql.Int 1;
              high_priority := Sql.Int 0 |}, snd (toggle_plan "1" one_plan)).
Proof.
  refine (proj1 (stats_counts (snd (toggle_plan "1" one_plan)) _)).
  discriminate.
Defined.

End StatsCounts.

(** ** Keys *)

Section Keys.

Lemma create_key (now js_now : Z) (b : body) (d d' : db) (c : created) :
  create_plan now js_now b d = (Ok200 c, d') ->
  c_id c = seq d + 1 /\ seq d' = c_id c.
Proof.
  unfold create_plan. destruct (missing_required b); [discriminate|].
  unfold insert_plan. destruct (Sql.max_rowid <=? seq d); [discriminate|].
  match goal with |- context [violation ?r] => set (row := r) end.
  destruct (violation row); [discriminate|].
  intros E; inversion E; subst; clear E. simpl. auto.
Qed.

Lemma seq_step (d : db) (r : request) : seq d <= seq (step d r).
Proof.
  destruct r as [|i|now js_now b|i b|i|i|]; simpl; try lia.
  - rewrite get_keeps. lia.
  - destruct (create_plan now js_now b d) as [[c| | |e] d'] eqn:E; simpl;
      try (unfold create_plan in E;
           destruct (missing_required b);
           [inversion E; lia
           |destruct (insert_plan _ _ _ _ _ _ _) as [[d0 k]|e0];
            inversion E; subst; lia]).
    apply create_key in E. lia.
  - unfold update_plan, update_plan_where.
    destruct (first_violation _ _ _); simpl; [lia|].
    destruct (_ =? 0); simpl; lia.
  - unfold delete_plan, delete_where. destruct (_ =? 0); simpl; lia.
  - unfold toggle_plan. destruct (select_by_id _ _); simpl; lia.
Qed.

Lemma seq_run (rs : list request) (d : db) : seq d <= seq (run rs d).
Proof.
  revert d. induction rs as [|r rs IH]; intros d; simpl; [lia|].
  pose proof (seq_step d r). pose proof (IH (step d r)). unfold run in *. lia.
Qed.

(** X2.  Keys are fresh and grow: the key a create answers with is above every
    key stored in a reachable database, and a later create, whatever was
    served in between, answers with a strictly larger key. *)
Theorem keys_increase (d : db) (now1 js1 : Z) (b1 : body) (c1 : created) (d1 : db) :
  reachable d ->
  create_plan now1 js1 b1 d = (Ok200 c1, d1) ->
  (forall r, In r (plans d) -> id r < c_id c1) /\
  (forall rs now2 js2 b2 c2 d2,
     create_plan now2 js2 b2 (run rs d1) = (Ok200 c2, d2) ->
     c_id c1 < c_id c2).
Proof.
  intros Hr E. apply reachable_wf in Hr.
  apply create_key in E. destruct E as [E1 E2]. split.
  - intros r Hin. pose proof (wf_ids _ Hr) as H.
    rewrite Forall_forall in H. specialize (H r Hin). lia.
  - intros rs now2 js2 b2 c2 d2 E.
    apply create_key in E. destruct E as [E3 _].
    pose proof (seq_run rs d1). lia.
Qed.

(** Two creates on a new database, a toggle in between. *)
Lemma keys_increase_witness :
  c_id ship_release_created < 2.
Proof.
  refine (proj2 (keys_increase empty_db 100 100000 ship_release
                   ship_release_created one_plan (ex_intro _ [] eq_refl) eq_refl)
            [TogglePlan "1"] 160 160000 ship_release
            (mkCreated 2 (JS.Str "Ship release") (JS.Str "") (JS.Str "medium")
               (JS.Str "2024-06-01") (JS.Str "alice") false 160000) _ eq_refl).
Defined.

(** The end-to-end scenario, run: the create is answered with key 1,
    [completed: false], priority ['medium'] and description ['']; the toggle
    of key 1 with [{completed: true, changes: 1}]; the delete of key 1 with
    [changes: 1]; the get of key 1 after that with 404. *)
Theorem scenario :
  fst (create_plan 100 100000 ship_release empty_db) = Ok200 ship_release_created /\
  fst (toggle_plan "1" one_plan)
    = Ok200 {| t_completed := true; t_changes := 1 |} /\
  fst (delete_plan "1" (run [TogglePlan "1"] one_plan))
    = Ok200 {| ch_message := PlanDeleted; ch_changes := 1 |} /\
  status (fst (get_plan "1" (run [TogglePlan "1"; DeletePlan "1"] one_plan))) = 404.
Proof. repeat split. Qed.

End Keys.

(** ** Failed requests, reads *)

Section Failures.

Lemma update_not_found_same (i : string) (b : body) (d d' : db) :
  update_plan i b d = (NotFound, d') -> d' = d.
Proof.
  unfold update_plan, update_plan_where.
  destruct (first_violation _ _ _); [discriminate|].
  destruct (changes_of (param i) (plans d) =? 0) eqn:E; [|discriminate].
  intros H; inversion H; subst; clear H.
  apply Z.eqb_eq, no_hit_changes in E.
  now rewrite no_hit_rewrite, db_eta.
Qed.

Lemma delete_not_found_same (i : string) (d d' : db) :
  delete_plan i d = (NotFound, d') -> d' = d.
Proof.
  unfold delete_plan, delete_where.
  destruct (changes_of (param i) (plans d) =? 0) eqn:E; [|discriminate].
  intros H; inversion H; subst; clear H.
  apply Z.eqb_eq, no_hit_changes in E.
  change (filter _ (plans d))
    with (filter (fun r => negb (hit (param i) r)) (plans d)).
  now rewrite no_hit_keep, db_eta.
Qed.

Lemma step_failed (d : db) (r : request) :
  status_of d r <> 200 -> step d r = d.
Proof.
  destruct r as [|i|now js_now b|i b|i|i|]; simpl; auto.
  - intros _. apply get_keeps.
  - unfold create_plan. destruct (missing_required b); auto.
    destruct (insert_plan _ _ _ _ _ _ _) as [[d' k]|e]; simpl; auto.
    intros H. now contradiction H.
  - destruct (update_plan i b d) as [[c| | |e] d'] eqn:E; simpl.
    + intros H. now contradiction H.
    + unfold update_plan in E.
      destruct (update_plan_where _ _ _ _ _ _ _ _) as [[d0 k]|e0];
        [destruct (k =? 0)|]; discriminate.
    + intros _. eapply update_not_found_same; eauto.
    + intros _. unfold update_plan in E.
      destruct (update_plan_where _ _ _ _ _ _ _ _) as [[d0 k]|e0];
        [destruct (k =? 0); discriminate|].
      now inversion E.
  - destruct (delete_plan i d) as [[c| | |e] d'] eqn:E; simpl.
    + intros H. now contradiction H.
    + unfold delete_plan, delete_where in E.
      destruct (_ =? 0); discriminate.
    + intros _. eapply delete_not_found_same; eauto.
    + unfold delete_plan, delete_where in E.
      destruct (_ =? 0); discriminate.
  - unfold toggle_plan. destruct (select_by_id _ _); simpl; auto.
    intros H. now contradiction H.
Qed.

(** X3.  A request that is not answered with status 200 writes nothing:
    after a 400, a 404 or a 500 the database is exactly what it was.  List,
    get and statistics write nothing whatever they answer. *)
Theorem failure_writes_nothing (d : db) (r : request) :
  (status_of d r <> 200 -> step d r = d) /\
  step d ListPlans = d /\ (forall i, step d (GetPlan i) = d) /\
  step d GetStats = d.
Proof.
  split; [apply step_failed|].
  split; [reflexivity|]. split; [|reflexivity].
  intros i. apply get_keeps.
Qed.

(** X3, at an update of plan 1 that the CHECK constraint refuses. *)
Lemma failure_writes_nothing_witness :
  step one_plan (UpdatePlan "1" (with_priority (JS.Str "urgent") ship_release))
  = one_plan.
Proof.
  refine (proj1 (failure_writes_nothing one_plan
                   (UpdatePlan "1" (with_priority (JS.Str "urgent") ship_release))) _).
  discriminate.
Defined.

End Failures.

(** ** More of what every reachable database satisfies *)

Section MoreInvariants.

Lemma sorted_nodup (l : list plan) :
  StronglySorted by_id l -> NoDup (map id l).
Proof.
  induction 1 as [|x l Hs IH Hx]; simpl; constructor; auto.
  rewrite in_map_iff. intros (y & E & Hy).
  rewrite Forall_forall in Hx. specialize (Hx _ Hy). unfold by_id in Hx. lia.
Qed.

Lemma bound_text (v : JS.value) :
  JS.truthy v = true -> exists s, Sql.text_affinity (Sql.bind v) = Sql.Text s.
Proof. intros T. now apply text_affinity_text, bind_truthy_not_null. Qed.

Lemma not_null_text (c : Sql.value) :
  Sql.is_null (Sql.text_affinity c) = false ->
  exists s, Sql.text_affinity c = Sql.Text s.
Proof. destruct c; simpl; intros H; try discriminate; eauto. Qed.

(** The description the handlers hand to the store is a text. *)
Lemma description_cell (v : JS.value) :
  exists s, Sql.text_affinity (Sql.bind (JS.or v (JS.Str ""))) = Sql.Text s.
Proof.
  unfold JS.or. destruct (JS.truthy v) eqn:T.
  - now apply bound_text.
  - exists "". reflexivity.
Qed.

Lemma cells_texts (r : plan) (t a : Sql.value) (ds : JS.value) :
  title r = Sql.text_affinity t -> author r = Sql.text_affinity a ->
  description r = Sql.text_affinity (Sql.bind (JS.or ds (JS.Str ""))) ->
  violation r = None -> texts r.
Proof.
  intros Ht Ha Hd V. apply violation_none in V.
  destruct V as (V1 & _ & V3 & _).
  repeat split.
  - rewrite Ht in *. apply not_null_text, is_null_false, V1.
  - rewrite Hd. apply description_cell.
  - rewrite Ha in *. apply not_null_text, is_null_false, V3.
Qed.

Lemma update_plans_ok (i : string) (b : body) (d : db) :
  plans (snd (update_plan i b d)) = plans d \/
  (first_violation (param i) (new_row b) (plans d) = None /\
   plans (snd (update_plan i b d))
   = rewrite_where (param i) (new_row b) (plans d)).
Proof.
  unfold update_plan, update_plan_where, new_row.
  destruct (first_violation _ _ _); auto.
  destruct (_ =? 0); auto.
Qed.

Lemma step_texts (d : db) (r : request) :
  Forall texts (plans d) -> Forall texts (plans (step d r)).
Proof.
  intros H. destruct r as [|i|now js_now b|i b|i|i|]; simpl; auto.
  - now rewrite get_keeps.
  - unfold create_plan. destruct (missing_required b); auto.
    unfold insert_plan. destruct (Sql.max_rowid <=? seq d); auto.
    match goal with |- context [violation ?r] => set (row := r) end.
    destruct (violation row) eqn:V; auto. simpl.
    apply Forall_app; split; auto. constructor; [|constructor].
    eapply cells_texts; eauto; reflexivity.
  - destruct (update_plans_ok i b d) as [-> | [V ->]]; auto.
    rewrite Forall_forall in *. intros y Hy.
    apply in_rewrite in Hy. destruct Hy as (x & Hx & ->).
    destruct (hit (param i) x) eqn:E; auto.
    rewrite first_violation_none in V.
    eapply cells_texts; eauto; reflexivity.
  - rewrite delete_plans. rewrite Forall_forall in *.
    intros y Hy. apply filter_In in Hy. apply H, Hy.
  - destruct (toggle_plans i d) as [-> | [c ->]]; auto.
    rewrite Forall_forall in *. intros y Hy.
    apply in_rewrite in Hy. destruct Hy as (x & Hx & ->).
    destruct (hit (param i) x); auto.
    destruct (H x Hx) as (T1 & T2 & T3). repeat split; assumption.
Qed.

(** The key counter moves only by a create that is answered with 200, and
    then by one, below the largest rowid. *)
Lemma seq_step_cases (d : db) (r : request) :
  seq (step d r) = seq d \/
  (seq d < Sql.max_rowid /\ seq (step d r) = seq d + 1).
Proof.
  destruct r as [|i|now js_now b|i b|i|i|]; simpl; auto.
  - left. now rewrite get_keeps.
  - unfold create_plan. destruct (missing_required b); auto.
    unfold insert_plan.
    destruct (Sql.max_rowid <=? seq d) eqn:F; auto.
    match goal with |- context [violation ?r] => set (row := r) end.
    destruct (violation row); auto. right. simpl.
    apply Z.leb_gt in F. auto.
  - left. unfold update_plan, update_plan_where.
    destruct (first_violation _ _ _); simpl; auto.
    destruct (_ =? 0); reflexivity.
  - left. unfold delete_plan, delete_where. destruct (_ =? 0); reflexivity.
  - left. unfold toggle_plan. destruct (select_by_id _ _); reflexivity.
Qed.

Lemma run_texts_bound (rs : list request) (d : db) :
  Forall texts (plans d) -> seq d <= Sql.max_rowid ->
  Forall texts (plans (run rs d)) /\ seq (run rs d) <= Sql.max_rowid.
Proof.
  revert d. induction rs as [|r rs IH]; intros d Ht Hs; simpl; auto.
  apply IH.
  - now apply step_texts.
  - destruct (seq_step_cases d r) as [-> | [H ->]]; lia.
Qed.

(** X4.  In every database the service can reach: the key counter is
    between 0 and the largest rowid; no two stored plans share an id; every
    stored plan has an id between 1 and the counter, a title, a description
    and an author that are texts (never NULL, never a number), a deadline
    that is not NULL, and a [completed] column that is 0 or 1. *)
Theorem stored_plans_invariant (d : db) :
  reachable d ->
  0 <= seq d <= Sql.max_rowid /\
  NoDup (map id (plans d)) /\
  forall r, In r (plans d) ->
    1 <= id r <= seq d /\ texts r /\ deadline r <> Sql.Null /\
    (completed r = Sql.Int 0 \/ completed r = Sql.Int 1).
Proof.
  intros Hr. pose proof (reachable_wf d Hr) as [Hseq Hrows Hids Hord].
  destruct Hr as [rs ->].
  destruct (run_texts_bound rs empty_db) as [Ht Hb];
    [constructor | unfold Sql.max_rowid; simpl; lia |].
  split; [lia|]. split; [now apply sorted_nodup|].
  intros r Hin. rewrite Forall_forall in *.
  split; [now apply Hids|]. split; [now apply Ht|].
  destruct (Hrows r Hin) as [_ H2 _ _ H5]. auto.
Qed.

(** X4, at the scenario's table. *)
Lemma stored_plans_invariant_witness :
  NoDup (map id (plans two_plans)).
Proof.
  refine (proj1 (proj2 (stored_plans_invariant two_plans _))).
  eexists; reflexivity.
Defined.

End MoreInvariants.

(** ** Create, get, delete and list together *)

Section RoundTrips.

Lemma find_snoc (p : Sql.value) (l : list plan) (r : plan) :
  no_hit p l -> hit p r = true -> find (hit p) (l ++ [r]) = Some r.
Proof.
  intros Hn Hr. induction l as [|x l IH]; simpl.
  - now rewrite Hr.
  - rewrite (Hn x (or_introl eq_refl)). apply IH.
    intros y Hy. apply Hn. now right.
Qed.

Lemma filter_snoc (p : Sql.value) (l : list plan) (r : plan) :
  no_hit p l -> hit p r = true ->
  filter (fun x => negb (hit p x)) (l ++ [r]) = l.
Proof.
  intros Hn Hr. rewrite filter_app, (no_hit_keep _ _ Hn). simpl.
  rewrite Hr. simpl. apply app_nil_r.
Qed.

(** No stored plan has a key above the counter. *)
Lemma fresh_key (d : db) (k : Z) :
  wf d -> seq d < k -> no_hit (param (decimal k)) (plans d).
Proof.
  intros Hwf Hk r Hin. rewrite decimal_hit.
  pose proof (wf_ids _ Hwf) as H. rewrite Forall_forall in H.
  specialize (H r Hin). apply Z.eqb_neq. lia.
Qed.

Lemma accepted_spelling (v : JS.value) :
  accepted_priority v ->
  Sql.to_js (Sql.text_affinity (Sql.bind (JS.or v (JS.Str "medium"))))
  = JS.or v (JS.Str "medium").
Proof.
  unfold accepted_priority, JS.or. intros [F | H].
  - rewrite F. reflexivity.
  - destruct H as [<- | [<- | [<- | []]]]; reflexivity.
Qed.

(** X5.  A create answered with 200 can be read back: a get with the
    decimal text of the returned id answers 200 with the row just stored,
    whose id is the returned one, whose [completed] is 0 and whose
    [created_at] is the store's clock reading.  The priority read back is the
    one the create answered with; a title, an author or a description given
    as a string is read back as that string, and a description left out as
    the empty string. *)
Theorem create_then_get (now js_now : Z) (b : body) (d d' : db) (c : created) :
  reachable d ->
  create_plan now js_now b d = (Ok200 c, d') ->
  exists row,
    get_plan (decimal (c_id c)) d' = (Ok200 row, d') /\
    id row = c_id c /\ completed row = Sql.Int 0 /\ created_at row = now /\
    Sql.to_js (priority row) = c_priority c /\
    (forall s, b_title b = JS.Str s -> Sql.to_js (title row) = c_title c) /\
    (forall s, b_author b = JS.Str s -> Sql.to_js (author row) = c_author c) /\
    (forall s, b_description b = JS.Str s ->
               Sql.to_js (description row) = c_description c) /\
    (b_description b = JS.Undefined -> description row = Sql.Text "").
Proof.
  intros Hr. apply reachable_wf in Hr.
  unfold create_plan. destruct (missing_required b); [discriminate|].
  unfold insert_plan. destruct (Sql.max_rowid <=? seq d); [discriminate|].
  match goal with |- context [violation ?r] => set (row := r) end.
  destruct (violation row) eqn:V; [discriminate|].
  intros E; inversion E; subst; clear E.
  exists row. unfold get_plan, select_by_id. cbn [plans c_id].
  rewrite find_snoc.
  - split; [reflexivity|]. repeat split.
    + apply violation_none in V. destruct V as (_ & _ & _ & V).
      apply accepted_spelling. apply priority_check. exact V.
    + intros s E. unfold row. simpl. rewrite E. reflexivity.
    + intros s E. unfold row. simpl. rewrite E. reflexivity.
    + intros s E. unfold row. simpl. rewrite E.
      unfold JS.or. destruct (JS.truthy (JS.Str s)); reflexivity.
    + intros E. unfold row. simpl. rewrite E. reflexivity.
  - apply fresh_key; auto. simpl. lia.
  - rewrite decimal_hit. simpl. apply Z.eqb_refl.
Qed.

(** X5, at the scenario's create on a new database. *)
Lemma create_then_get_witness :
  exists row,
    get_plan "1" one_plan = (Ok200 row, one_plan) /\
    Sql.to_js (priority row) = JS.Str "medium".
Proof.
  destruct (create_then_get 100 100000 ship_release empty_db one_plan
              ship_release_created (ex_intro _ [] eq_refl) eq_refl)
    as (row & H1 & _ & _ & _ & H2 & _).
  exists row. split; [exact H1 | exact H2].
Defined.

(** X6.  After a delete with identifier [i], whatever it was answered
    with, no stored plan has the key [i] selects: a get, an update (with any
    body), a second delete and a toggle with [i] are all answered with 404
    and change nothing. *)
Theorem delete_then_not_found (i : string) (b : body) (d : db) :
  unmatched i (snd (delete_plan i d)) /\
  get_plan i (snd (delete_plan i d)) = (NotFound, snd (delete_plan i d)) /\
  update_plan i b (snd (delete_plan i d)) = (NotFound, snd (delete_plan i d)) /\
  delete_plan i (snd (delete_plan i d)) = (NotFound, snd (delete_plan i d)) /\
  toggle_plan i (snd (delete_plan i d)) = (NotFound, snd (delete_plan i d)).
Proof.
  assert (H : unmatched i (snd (delete_plan i d))).
  { unfold unmatched. rewrite delete_plans. apply no_hit_find, find_delete. }
  split; [exact H|].
  auto using get_unmatched, update_unmatched, delete_unmatched, toggle_unmatched.
Qed.

(** X7.  A delete of the plan a create has just stored, named by the
    decimal text of its id, is answered with [changes: 1] and leaves the
    table with exactly the rows it had before the create; only the key
    counter keeps the id, so the id is not given out again. *)
Theorem create_then_delete (now js_now : Z) (b : body) (d d' : db) (c : created) :
  reachable d ->
  create_plan now js_now b d = (Ok200 c, d') ->
  delete_plan (decimal (c_id c)) d'
  = (Ok200 {| ch_message := PlanDeleted; ch_changes := 1 |},
     {| plans := plans d; seq := c_id c |}) /\
  seq d < c_id c.
Proof.
  intros Hr E. pose proof (reachable_wf d Hr) as Hwf.
  assert (Hwf' : wf d').
  { replace d' with (step d (CreatePlan now js_now b)) by (simpl; now rewrite E).
    now apply step_wf. }
  revert E. unfold create_plan. destruct (missing_required b); [discriminate|].
  unfold insert_plan. destruct (Sql.max_rowid <=? seq d); [discriminate|].
  match goal with |- context [violation ?r] => set (row := r) end.
  destruct (violation row) eqn:V; [discriminate|].
  intros E; inversion E; subst; clear E. cbn [c_id].
  assert (Hn : no_hit (param (decimal (id row))) (plans d))
    by (apply fresh_key; auto; simpl; lia).
  assert (Hh : hit (param (decimal (id row))) row = true)
    by (rewrite decimal_hit; apply Z.eqb_refl).
  split; [|simpl; lia].
  rewrite (delete_matched _ _ row Hwf').
  - cbn [plans seq]. now rewrite filter_snoc.
  - unfold select_by_id. cbn [plans]. now apply find_snoc.
Qed.

(** X7, at the scenario's create on a new database. *)
Lemma create_then_delete_witness :
  delete_plan "1" one_plan
  = (Ok200 {| ch_message := PlanDeleted; ch_changes := 1 |},
     {| plans := []; seq := 1 |}).
Proof.
  exact (proj1 (create_then_delete 100 100000 ship_release empty_db one_plan
                  ship_release_created (ex_intro _ [] eq_refl) eq_refl)).
Defined.

End RoundTrips.

(** ** What a create answers *)

Section CreateAnswer.

(** C2.  A create request that is answered with status 200 is answered
    with the whole record: the id the store assigned, which is positive; the
    title, deadline and author of the request; the description of the
    request, or [''] when it was left out (or is falsy); the priority of the
    request, or ['medium'] when it was left out (or is falsy), in any case
    one of the three priorities; [completed: false]; and [created_at], the
    handler's own clock reading, whatever second the store recorded.  The
    row the store appended has that id, [completed] 0, the store's second,
    the answered priority, and the title, author, description and date the
    request gave as strings. *)
Theorem create_response (now js_now : Z) (b : body) (d d' : db) (c : created) :
  reachable d ->
  create_plan now js_now b d = (Ok200 c, d') ->
  0 < c_id c /\ c_id c = seq d + 1 /\
  c_title c = b_title b /\ c_deadline c = b_deadline b /\
  c_author c = b_author b /\
  (forall s, b_description b = JS.Str s -> c_description c = JS.Str s) /\
  (JS.truthy (b_description b) = true -> c_description c = b_description b) /\
  (absent (b_description b) -> c_description c = JS.Str "") /\
  (JS.truthy (b_description b) = false -> c_description c = JS.Str "") /\
  (forall s, b_priority b = JS.Str s -> s <> "" -> c_priority c = JS.Str s) /\
  (JS.truthy (b_priority b) = true -> c_priority c = b_priority b) /\
  (absent_or_empty (b_priority b) -> c_priority c = JS.Str "medium") /\
  (JS.truthy (b_priority b) = false -> c_priority c = JS.Str "medium") /\
  In (c_priority c) priorities /\
  c_completed c = false /\
  c_created_at c = js_now /\
  exists row,
    plans d' = plans d ++ [row] /\ id row = c_id c /\
    completed row = Sql.Int 0 /\ created_at row = now /\
    Sql.to_js (priority row) = c_priority c /\
    (forall s, b_title b = JS.Str s -> title row = Sql.Text s) /\
    (forall s, b_author b = JS.Str s -> author row = Sql.Text s) /\
    (forall s, b_description b = JS.Str s -> description row = Sql.Text s) /\
    (absent (b_description b) -> description row = Sql.Text "") /\
    (forall s, b_deadline b = JS.Str s -> date_text s ->
               deadline row = Sql.Text s).
Proof.
  intros Hr. apply reachable_wf in Hr. destruct Hr as [Hseq _ _ _].
  unfold create_plan. destruct (missing_required b); [discriminate|].
  unfold insert_plan. destruct (Sql.max_rowid <=? seq d); [discriminate|].
  match goal with |- context [violation ?r] => set (row := r) end.
  destruct (violation row) eqn:V; [discriminate|].
  intros E; inversion E; subst; clear E.
  apply violation_none in V. destruct V as (_ & _ & _ & V).
  apply priority_check in V.
  assert (Hd : forall v dflt, JS.truthy v = true -> JS.or v dflt = v)
    by (intros v dflt T; unfold JS.or; now rewrite T).
  assert (Hf : forall v dflt, JS.truthy v = false -> JS.or v dflt = dflt)
    by (intros v dflt T; unfold JS.or; now rewrite T).
  cbn [c_id c_title c_deadline c_author c_description c_priority
       c_completed c_created_at].
  split; [simpl; lia|]. split; [reflexivity|].
  split; [reflexivity|]. split; [reflexivity|]. split; [reflexivity|].
  split.
  { intros s ->. unfold JS.or. destruct (JS.truthy (JS.Str s)) eqn:T; auto.
    simpl in T. apply negb_false_iff, String.eqb_eq in T. now subst. }
  split; [intros T; now apply Hd|].
  split; [intros [-> | ->]; reflexivity|].
  split; [intros T; now apply Hf|].
  split.
  { intros s -> Hs. apply Hd. simpl. now apply negb_true_iff, String.eqb_neq. }
  split; [intros T; now apply Hd|].
  split; [intros A; apply Hf; now apply absent_or_empty_falsy|].
  split; [intros T; now apply Hf|].
  split.
  { destruct V as [F | I]; [rewrite (Hf _ _ F); right; left; reflexivity|].
    assert (T : JS.truthy (b_priority b) = true)
      by (destruct I as [<- | [<- | [<- | []]]]; reflexivity).
    now rewrite (Hd _ _ T). }
  split; [reflexivity|]. split; [reflexivity|].
  exists row. split; [reflexivity|]. split; [reflexivity|].
  split; [reflexivity|]. split; [reflexivity|].
  split; [now apply accepted_spelling|].
  split; [intros s E; unfold row; simpl; now rewrite E|].
  split; [intros s E; unfold row; simpl; now rewrite E|].
  split.
  { intros s E. unfold row. simpl. rewrite E. unfold JS.or.
    destruct (JS.truthy (JS.Str s)) eqn:T; auto.
    simpl in T. apply negb_false_iff, String.eqb_eq in T. now subst. }
  split; [intros [E | E]; unfold row; simpl; now rewrite E|].
  intros s E D. unfold row. cbn [deadline]. rewrite E. now apply date_cell.
Qed.

(** C2, at the scenario's request on a new database, and at the same
    request with a description and the priority ['high']. *)
Lemma create_response_witness :
  (create_plan 100 100000 ship_release empty_db
     = (Ok200 ship_release_created, one_plan) /\
   0 < c_id ship_release_created /\
   c_description ship_release_created = JS.Str "" /\
   c_priority ship_release_created = JS.Str "medium" /\
   c_created_at ship_release_created = 100000) /\
  (exists c d',
     create_plan 100 100000
       (with_description (JS.Str "Tag and publish")
          (with_priority (JS.Str "high") ship_release)) empty_db
     = (Ok200 c, d') /\
     c_description c = JS.Str "Tag and publish" /\ c_priority c = JS.Str "high").
Proof.
  split.
  - split; [reflexivity|].
    destruct (create_response 100 100000 ship_release empty_db one_plan
                ship_release_created (ex_intro _ [] eq_refl) eq_refl)
      as (H1 & _ & _ & _ & _ & _ & _ & H2 & _ & _ & _ & H3 & _ & _ & _ & H4 & _).
    split; [exact H1|]. split; [apply H2; left; reflexivity|].
    split; [apply H3; left; left; reflexivity | exact H4].
  - do 2 eexists. split; [reflexivity|].
    destruct (create_response 100 100000
                (with_description (JS.Str "Tag and publish")
                   (with_priority (JS.Str "high") ship_release))
                empty_db _ _ (ex_intro _ [] eq_refl) eq_refl)
      as (_ & _ & _ & _ & _ & H1 & _ & _ & _ & H2 & _).
    split; [now apply H1 | apply (H2 "high"); [reflexivity | discriminate]].
Defined.

End CreateAnswer.

(** ** Update, toggle and the listing *)

Section UpdateAgain.

Lemma new_row_twice (b : body) (r : plan) : new_row b (new_row b r) = new_row b r.
Proof. reflexivity. Qed.

(** X8.  Update is idempotent: sent a second time with the same
    identifier and body, right after the first, it is answered as the first
    was (200 with [changes: 1], 404, or the same storage error) and leaves
    the database as the first left it. *)
Theorem update_idempotent (i : string) (b : body) (d : db) :
  reachable d ->
  update_plan i b (snd (update_plan i b d))
  = (fst (update_plan i b d), snd (update_plan i b d)).
Proof.
  intros Hr. apply reachable_wf in Hr.
  destruct (matched_or_not i d) as [H | [row H]].
  - rewrite (update_unmatched i b d H). simpl. now apply update_unmatched.
  - pose proof (step_wf d (UpdatePlan i b) Hr) as Hwf1. simpl in Hwf1.
    rewrite (update_matched i b d row Hr H) in *.
    destruct (violation (new_row b row)) as [e|] eqn:V; simpl in *.
    + rewrite (update_matched i b d row Hr H), V. reflexivity.
    + assert (H1 : select_by_id (param i)
                     {| plans := rewrite_where (param i) (new_row b) (plans d);
                        seq := seq d |} = Some (new_row b row)).
      { unfold select_by_id in *. simpl.
        rewrite find_rewrite by reflexivity. now rewrite H. }
      rewrite (update_matched i b _ _ Hwf1 H1), new_row_twice, V. simpl.
      rewrite rewrite_twice by reflexivity. reflexivity.
Qed.

(** X8, at an update of plan 1 that sets [completed]. *)
Lemma update_idempotent_witness :
  update_plan "1" (with_completed (JS.Bool true) ship_release)
    (snd (update_plan "1" (with_completed (JS.Bool true) ship_release) one_plan))
  = (Ok200 {| ch_message := PlanUpdated; ch_changes := 1 |},
     snd (update_plan "1" (with_completed (JS.Bool true) ship_release) one_plan)).
Proof.
  exact (update_idempotent "1" (with_completed (JS.Bool true) ship_release)
           one_plan (ex_intro _ [CreatePlan 100 100000 ship_release] eq_refl)).
Defined.

Lemma insert_desc_map (g : plan -> plan) (r : plan) (l : list plan) :
  (forall x, created_at (g x) = created_at x) ->
  insert_desc (g r) (map g l) = map g (insert_desc r l).
Proof.
  intros Hg. induction l as [|x l IH]; simpl; auto.
  rewrite !Hg. destruct (created_at r <? created_at x); simpl; auto.
  now rewrite IH.
Qed.

Lemma order_map (g : plan -> plan) (l : list plan) :
  (forall x, created_at (g x) = created_at x) ->
  order_by_created_at_desc (map g l) = map g (order_by_created_at_desc l).
Proof.
  intros Hg. induction l as [|x l IH]; simpl; auto.
  now rewrite IH, insert_desc_map.
Qed.

Lemma listing_rewrite (p : Sql.value) (f : plan -> plan) (l : list plan) :
  (forall x, created_at (f x) = created_at x) ->
  order_by_created_at_desc (rewrite_where p f l)
  = rewrite_where p f (order_by_created_at_desc l).
Proof.
  intros Hf. unfold rewrite_where. apply order_map.
  intros x. destruct (hit p x); auto.
Qed.

Lemma ids_rewrite (p : Sql.value) (f : plan -> plan) (l : list plan) :
  (forall x, id (f x) = id x) -> map id (rewrite_where p f l) = map id l.
Proof.
  intros Hf. unfold rewrite_where. rewrite map_map. apply map_ext.
  intros x. destruct (hit p x); auto.
Qed.

(** X9.  An update or a toggle never moves a plan in the listing: after
    either, whatever it was answered with, the list operation returns the
    plans with the same ids in the same order and with the same [created_at]
    as before. *)
Theorem listing_order_kept (i : string) (b : body) (d : db) :
  map id (select_all (snd (update_plan i b d))) = map id (select_all d) /\
  map created_at (select_all (snd (update_plan i b d)))
    = map created_at (select_all d) /\
  map id (select_all (snd (toggle_plan i d))) = map id (select_all d) /\
  map created_at (select_all (snd (toggle_plan i d)))
    = map created_at (select_all d).
Proof.
  assert (K : forall p f l,
             (forall x, created_at (f x) = created_at x) ->
             map created_at (rewrite_where p f l) = map created_at l).
  { intros p f l Hf. unfold rewrite_where. rewrite map_map. apply map_ext.
    intros x. destruct (hit p x); auto. }
  unfold select_all.
  destruct (update_plans i b d) as [-> | ->];
    destruct (toggle_plans i d) as [-> | [c ->]];
    rewrite ?listing_rewrite by reflexivity;
    rewrite ?ids_rewrite by reflexivity;
    rewrite ?K by reflexivity; auto.
Qed.

End UpdateAgain.

(** ** Listing, get and statistics agree *)

Section Agreement.

Lemma in_listing (d : db) (r : plan) : In r (select_all d) <-> In r (plans d).
Proof.
  unfold select_all. split; intros H.
  - eapply Permutation_in; [symmetry; apply order_perm | exact H].
  - eapply Permutation_in; [apply order_perm | exact H].
Qed.

(** X10.  The three reads agree in every reachable database: each plan of
    the listing is what a get with the decimal text of its id answers; a get
    answered with 200 returns a plan of the listing and writes nothing, and
    when its identifier is a numeral, the plan returned has that id; and the
    listing has as many plans as the statistics report as [total]. *)
Theorem reads_agree (d : db) :
  reachable d ->
  (forall r, In r (select_all d) -> get_plan (decimal (id r)) d = (Ok200 r, d)) /\
  (forall i r d', get_plan i d = (Ok200 r, d') ->
     In r (select_all d) /\ d' = d) /\
  (forall i k r d', numeral i k -> get_plan i d = (Ok200 r, d') -> id r = k) /\
  total (select_stats d) = Sql.count (select_all d).
Proof.
  intros Hr. apply reachable_wf in Hr. split; [|split; [|split]].
  - intros r Hin. apply in_listing in Hin.
    unfold get_plan, select_by_id.
    destruct (find (hit (param (decimal (id r)))) (plans d)) as [x|] eqn:F.
    + apply find_some in F. destruct F as [Hx Hh].
      rewrite decimal_hit in Hh. apply Z.eqb_eq in Hh.
      rewrite (sorted_unique _ _ _ (wf_order _ Hr) Hx Hin (eq_sym Hh)).
      reflexivity.
    + apply no_hit_find in F. specialize (F r Hin).
      rewrite decimal_hit, Z.eqb_refl in F. discriminate.
  - intros i r d'. unfold get_plan, select_by_id.
    destruct (find (hit (param i)) (plans d)) as [x|] eqn:F; [|discriminate].
    intros E; inversion E; subst; clear E.
    apply find_some in F. destruct F as [Hx Hh].
    split; [now apply in_listing | auto].
  - intros i k r d' Hi. unfold get_plan, select_by_id.
    destruct (find (hit (param i)) (plans d)) as [x|] eqn:F; [|discriminate].
    intros E; inversion E; subst; clear E.
    apply find_some in F. destruct F as [_ Hh].
    rewrite (numeral_hit i k r Hi) in Hh. apply Z.eqb_eq in Hh. auto.
  - unfold select_stats, select_all, Sql.count. simpl.
    now rewrite (Permutation_length (order_perm (plans d))).
Qed.

(** X10, at the second plan of a table with two. *)
Lemma reads_agree_witness :
  get_plan "2" two_plans
  = (Ok200 (mkPlan 2 (Sql.Text "Write notes") (Sql.Text "") (Sql.Text "medium")
              (Sql.Text "2024-06-01") (Sql.Text "alice") (Sql.Int 0) 100),
     two_plans).
Proof.
  refine (proj1 (reads_agree two_plans _)
            (mkPlan 2 (Sql.Text "Write notes") (Sql.Text "") (Sql.Text "medium")
               (Sql.Text "2024-06-01") (Sql.Text "alice") (Sql.Int 0) 100) _).
  - eexists; reflexivity.
  - right; left; reflexivity.
Defined.

End Agreement.

(** ** Statistics and the size of the table, request by request *)

Section Counting.

Lemma sum_count (f : plan -> bool) (l : list plan) :
  l <> [] ->
  Sql.sum (map (fun r => if f r then 1 else 0) l) = Sql.Int (count_rows f l).
Proof.
  intros H. rewrite <- sum_indicator.
  destruct l; [contradiction | reflexivity].
Qed.

Lemma count_cons (f : plan -> bool) (x : plan) (l : list plan) :
  count_rows f (x :: l) = (if f x then 1 else 0) + count_rows f l.
Proof.
  unfold count_rows. simpl. destruct (f x); simpl List.length; lia.
Qed.

(** Rewriting the one selected row changes a count by what that row
    contributes before and after. *)
Lemma count_rewrite_one (f : plan -> bool) (p : Sql.value) (g : plan -> plan)
      (l : list plan) (row : plan) :
  StronglySorted by_id l -> find (hit p) l = Some row ->
  count_rows f (rewrite_where p g l)
  = count_rows f l - (if f row then 1 else 0) + (if f (g row) then 1 else 0).
Proof.
  induction l as [|x l IH]; simpl; intros Hs Hf; [discriminate|].
  destruct (hit p x) eqn:E.
  - inversion Hf; subst.
    change (map (fun r => if hit p r then g r else r) l)
      with (rewrite_where p g l).
    rewrite (no_hit_rewrite p g l (sorted_hit_tail p _ _ Hs E)).
    rewrite !count_cons. lia.
  - change (map (fun r => if hit p r then g r else r) l)
      with (rewrite_where p g l).
    rewrite !count_cons, IH; auto.
    + lia.
    + apply StronglySorted_inv in Hs. tauto.
Qed.

Lemma found_nonempty (p : Sql.value) (l : list plan) (row : plan) :
  find (hit p) l = Some row -> l <> [].
Proof. destruct l; [discriminate | discriminate]. Qed.

(** X11.  A toggle of a stored plan moves the [completed] statistic by
    exactly one, down when the plan was completed and up when it was not,
    and leaves [total] and [high_priority] as they were. *)
Theorem toggle_moves_statistics (i : string) (d : db) (row : plan) :
  reachable d -> select_by_id (param i) d = Some row ->
  exists n,
    completed_count (select_stats d) = Sql.Int n /\
    completed_count (select_stats (snd (toggle_plan i d)))
    = Sql.Int (if is_completed row then n - 1 else n + 1) /\
    total (select_stats (snd (toggle_plan i d))) = total (select_stats d) /\
    high_priority (select_stats (snd (toggle_plan i d)))
    = high_priority (select_stats d).
Proof.
  intros Hr Hf. apply reachable_wf in Hr.
  pose proof (found_nonempty _ _ _ Hf) as Hne.
  destruct (flag_cases row (stored_row_ok i d row Hr Hf)) as [was Hc].
  rewrite (toggle_matched i d row Hr Hf). cbn [snd].
  set (g := set_completed _).
  assert (Hne' : rewrite_where (param i) g (plans d) <> []).
  { unfold rewrite_where. destruct (plans d); [contradiction | discriminate]. }
  exists (count_rows is_completed (plans d)).
  unfold select_stats. cbn [plans total completed_count high_priority].
  fold is_completed. 
  change (fun r : plan => if Sql.eq_int (completed r) 1 then 1 else 0)
    with (fun r : plan => if is_completed r then 1 else 0).
  change (fun r : plan => if Sql.eq_text (priority r) "high" then 1 else 0)
    with (fun r : plan => if is_high r then 1 else 0).
  rewrite !sum_count by assumption.
  rewrite !(count_rewrite_one _ _ g _ row (wf_order _ Hr) Hf).
  split; [reflexivity|]. split; [|split].
  - f_equal. unfold g, is_completed. rewrite Hc.
    destruct was; simpl; lia.
  - unfold Sql.count, rewrite_where. now rewrite length_map.
  - f_equal. unfold g, is_high. simpl. lia.
Qed.

(** X11, at the toggle of the scenario's plan. *)
Lemma toggle_moves_statistics_witness :
  exists n,
    completed_count (select_stats one_plan) = Sql.Int n /\
    completed_count (select_stats (snd (toggle_plan "1" one_plan)))
    = Sql.Int (n + 1).
Proof.
  destruct (toggle_moves_statistics "1" one_plan
              (mkPlan 1 (Sql.Text "Ship release") (Sql.Text "")
                 (Sql.Text "medium") (Sql.Text "2024-06-01")
                 (Sql.Text "alice") (Sql.Int 0) 100)
              (ex_intro _ [CreatePlan 100 100000 ship_release] eq_refl)
              eq_refl)
    as (n & H1 & H2 & _).
  exists n. split; [exact H1 | exact H2].
Defined.

Lemma delete_shrinks (p : Sql.value) (l : list plan) :
  Z.of_nat (List.length (filter (fun r => negb (hit p r)) l))
  = Z.of_nat (List.length l) - changes_of p l.
Proof.
  unfold changes_of. pose proof (filter_length (hit p) l). lia.
Qed.

(** X12.  The table grows by one row with every create answered with 200,
    shrinks by one row with every delete answered with 200, and keeps its
    size with every other request and with every request answered with
    another status. *)
Theorem table_growth (d : db) (r : request) :
  reachable d ->
  Z.of_nat (List.length (plans (step d r)))
  = Z.of_nat (List.length (plans d))
    + (if status_of d r =? 200 then growth r else 0).
Proof.
  intros Hr. apply reachable_wf in Hr.
  destruct (status_of d r =? 200) eqn:S.
  - apply Z.eqb_eq in S.
    destruct r as [|i|now js_now b|i b|i|i|]; simpl in *; try lia.
    + rewrite get_keeps. lia.
    + destruct (create_plan now js_now b d) as [[c| | |e] d'] eqn:E;
        simpl in S; try discriminate.
      apply create_appends in E. destruct E as (row & P & _).
      cbn [snd]. rewrite P, length_app. simpl List.length. lia.
    + destruct (update_plans i b d) as [-> | ->]; [lia|].
      unfold rewrite_where. rewrite length_map. lia.
    + destruct (matched_or_not i d) as [H | [row H]].
      * rewrite (delete_unmatched i d H) in S. discriminate.
      * rewrite delete_plans, delete_shrinks.
        rewrite (changes_one _ _ _ (wf_order _ Hr) H). lia.
    + destruct (toggle_plans i d) as [-> | [c ->]]; [lia|].
      unfold rewrite_where. rewrite length_map. lia.
  - apply Z.eqb_neq in S. rewrite (step_failed d r S). lia.
Qed.

(** X12, at the delete of the scenario's plan. *)
Lemma table_growth_witness :
  Z.of_nat (List.length (plans (step one_plan (DeletePlan "1")))) = 1 + -1.
Proof.
  exact (table_growth one_plan (DeletePlan "1")
           (ex_intro _ [CreatePlan 100 100000 ship_release] eq_refl)).
Defined.

End Counting.

(** ** What create checks and update does not *)

Section Asymmetry.

Lemma decimal_nonempty (z : Z) : NilZero.string_of_int (Z.to_int z) <> "".
Proof. destruct (Z.to_int z) as [u|u]; destruct u; discriminate. Qed.

Lemma truthy_nonempty_text (v : JS.value) :
  JS.truthy v = true ->
  exists s, Sql.text_affinity (Sql.bind v) = Sql.Text s /\ s <> "".
Proof.
  destruct v as [| |b|n|s]; simpl; intros T; try discriminate.
  - subst b. exists "1". split; [reflexivity | discriminate].
  - eexists. split; [reflexivity | apply decimal_nonempty].
  - exists s. split; [reflexivity|].
    apply negb_true_iff, String.eqb_neq in T. exact T.
Qed.

(** X14.  The required-field check guards create only.  A plan stored by
    a create has a title and an author that are non-empty texts.  An update
    of a stored plan whose body gives the empty string as title, and
    otherwise passes the constraints, is answered with 200 and stores the
    empty title. *)
Theorem empty_title_by_update_only :
  (forall now js_now b d c d',
     create_plan now js_now b d = (Ok200 c, d') ->
     exists row, plans d' = plans d ++ [row] /\
       (exists s, title row = Sql.Text s /\ s <> "") /\
       (exists s, author row = Sql.Text s /\ s <> "")) /\
  (forall i b d row,
     reachable d -> select_by_id (param i) d = Some row ->
     storable b -> b_title b = JS.Str "" ->
     exists d' row',
       update_plan i b d
       = (Ok200 {| ch_message := PlanUpdated; ch_changes := 1 |}, d') /\
       select_by_id (param i) d' = Some row' /\ title row' = Sql.Text "").
Proof.
  split.
  - intros now js_now b d c d'. unfold create_plan.
    destruct (missing_required b) eqn:M; [discriminate|].
    apply missing_required_false in M. destruct M as (Ht & _ & Ha).
    unfold insert_plan. destruct (Sql.max_rowid <=? seq d); [discriminate|].
    match goal with |- context [violation ?r] => set (row := r) end.
    destruct (violation row); [discriminate|].
    intros E; inversion E; subst; clear E.
    exists row. split; [reflexivity|].
    split; apply truthy_nonempty_text; assumption.
  - intros i b d row Hr Hf Hs Ht. apply reachable_wf in Hr.
    rewrite (update_matched i b d row Hr Hf).
    rewrite (proj2 (violation_new_row b row) Hs).
    eexists. exists (new_row b row). split; [reflexivity|]. split.
    + unfold select_by_id in *. simpl.
      rewrite find_rewrite by reflexivity. now rewrite Hf.
    + simpl. rewrite Ht. reflexivity.
Qed.

(** X14, at an update of the scenario's plan with an empty title. *)
Lemma empty_title_by_update_only_witness :
  exists d' row',
    update_plan "1" (with_title (JS.Str "") ship_release) one_plan
    = (Ok200 {| ch_message := PlanUpdated; ch_changes := 1 |}, d') /\
    select_by_id (param "1") d' = Some row' /\ title row' = Sql.Text "".
Proof.
  refine (proj2 empty_title_by_update_only "1"
            (with_title (JS.Str "") ship_release) one_plan
            (mkPlan 1 (Sql.Text "Ship release") (Sql.Text "")
               (Sql.Text "medium") (Sql.Text "2024-06-01")
               (Sql.Text "alice") (Sql.Int 0) 100) _ eq_refl _ eq_refl).
  - eexists; reflexivity.
  - repeat split; try (intros [H | H]; discriminate H). left; reflexivity.
Defined.

(** X15.  Ids that were never given out are never found: in a reachable
    database, get, update, delete and toggle with the decimal text of a key
    below 1 or above the key counter are answered with 404. *)
Theorem unused_ids_not_found (k : Z) (b : body) (d : db) :
  reachable d -> k < 1 \/ seq d < k ->
  get_plan (decimal k) d = (NotFound, d) /\
  update_plan (decimal k) b d = (NotFound, d) /\
  delete_plan (decimal k) d = (NotFound, d) /\
  toggle_plan (decimal k) d = (NotFound, d).
Proof.
  intros Hr Hk. apply reachable_wf in Hr.
  assert (H : unmatched (decimal k) d).
  { intros r Hin. rewrite decimal_hit.
    pose proof (wf_ids _ Hr) as Hi. rewrite Forall_forall in Hi.
    specialize (Hi r Hin). apply Z.eqb_neq. lia. }
  auto using get_unmatched, update_unmatched, delete_unmatched, toggle_unmatched.
Qed.

(** X15, at key 0 of the scenario's table. *)
Lemma unused_ids_not_found_witness :
  get_plan "0" one_plan = (NotFound, one_plan).
Proof.
  refine (proj1 (unused_ids_not_found 0 ship_release one_plan _ _)).
  - eexists; reflexivity.
  - left. reflexivity.
Defined.

End Asymmetry.
